(** * Date math: the relative-date mini-language of
      [packages/grafana-data/src/datetime/datemath.ts]

    A shallow embedding of [isMathString], [parse], [isNumber],
    [parseDateMath] and [roundToFiscal], over an abstract calendar
    collaborator (the moment wrapper), followed by the properties the
    specification states about them. *)

From Stdlib Require Import String Ascii List ZArith Lia Bool Arith.
From Stdlib Require Import DecimalString DecimalNat.
Import ListNotations.

Local Open Scope string_scope.
Local Open Scope Z_scope.

(** ** JavaScript values and string primitives

    Strings are sequences of code units; the embedding uses code units
    0..255.  A "character" is, as in JavaScript, a string of length one,
    and [charAt] past the end is the empty string. *)

Module JS.

(** What a [number | undefined] expression of the source can hold. *)
Inductive jsval : Type :=
| JNum (z : Z)
| JNaN
| JUndefined.

Definition jsval_eqb (a b : jsval) : bool :=
  match a, b with
  | JNum x, JNum y => Z.eqb x y
  | JUndefined, JUndefined => true
  | _, _ => false   (* NaN is not strictly equal to anything *)
  end.

(** [s.charAt(i)] *)
Definition charAt (s : string) (i : nat) : string :=
  match String.get i s with
  | Some c => String c EmptyString
  | None => EmptyString
  end.

(** [s.startsWith(p)] *)
Definition startsWith (s p : string) : bool := String.prefix p s.

(** [s.includes(p)] *)
Fixpoint includes (s p : string) : bool :=
  String.prefix p s ||
  match s with
  | EmptyString => false
  | String _ s' => includes s' p
  end.

(** [s.substring(from)] *)
Definition substringFrom (s : string) (from : nat) : string :=
  String.substring from (String.length s - from) s.

(** [s.substring(a, b)]: the arguments are swapped when [a > b]. *)
Definition substring (s : string) (a b : nat) : string :=
  String.substring (Nat.min a b) (Nat.max a b - Nat.min a b) s.

(** [s.split('||')] *)
Fixpoint split_bars (cur s : string) : list string :=
  match s with
  | EmptyString => [cur]
  | String c s' =>
      match s' with
      | String c' s'' =>
          if (Ascii.eqb c "|" && Ascii.eqb c' "|")%bool
          then cur :: split_bars EmptyString s''
          else split_bars (cur ++ String c EmptyString) s'
      | EmptyString => [cur ++ String c EmptyString]
      end
  end.

Definition split (s : string) : list string := split_bars EmptyString s.

(** [\d] *)
Definition isDigit (c : ascii) : bool :=
  let n := nat_of_ascii c in (48 <=? n)%nat && (n <=? 57)%nat.

(** [\s], on code units below 256: TAB, LF, VT, FF, CR, space, NBSP. *)
Definition isSpace (c : ascii) : bool :=
  let n := nat_of_ascii c in
  ((9 <=? n)%nat && (n <=? 13)%nat) || (n =? 32)%nat || (n =? 160)%nat.

(** [s.replace(/\s/g, '')] *)
Fixpoint stripSpaces (s : string) : string :=
  match s with
  | EmptyString => EmptyString
  | String c s' =>
      if isSpace c then stripSpaces s' else String c (stripSpaces s')
  end.

Fixpoint dropDigits (s : string) : string :=
  match s with
  | String c s' => if isDigit c then dropDigits s' else s
  | EmptyString => s
  end.

Fixpoint dropSpaces (s : string) : string :=
  match s with
  | String c s' => if isSpace c then dropSpaces s' else s
  | EmptyString => s
  end.

Definition digitValue (c : ascii) : Z := Z.of_nat (nat_of_ascii c) - 48.

(** Value of the leading run of decimal digits, most significant first. *)
Fixpoint digitsValue (acc : Z) (s : string) : Z :=
  match s with
  | String c s' => if isDigit c then digitsValue (10 * acc + digitValue c) s' else acc
  | EmptyString => acc
  end.

Definition startsWithDigit (s : string) : bool :=
  match s with
  | String c _ => isDigit c
  | EmptyString => false
  end.

(** [parseInt(s, 10)]: leading white space, an optional sign, then the
    longest run of digits; [NaN] when there is no digit. *)
Definition parseInt (s : string) : jsval :=
  let s := dropSpaces s in
  let (neg, body) :=
    match s with
    | String "-" r => (true, r)
    | String "+" r => (false, r)
    | _ => (false, s)
    end in
  if startsWithDigit body
  then JNum (if neg then - digitsValue 0 body else digitsValue 0 body)
  else JNaN.

End JS.
Import JS.

(** ** Module constants *)

Definition UNITS : list string := ["y"; "M"; "w"; "d"; "h"; "m"; "s"; "Q"].

(** [MATH_OP_TYPE_MAP[key]]; [None] is [undefined]. *)
Definition MATH_OP_TYPE_MAP (key : string) : option Z :=
  if String.eqb key "/" then Some 0
  else if String.eqb key "+" then Some 1
  else if String.eqb key "-" then Some 2
  else None.

Definition MAX_DATE_MATH_STRING_LENGTH : nat := 10.
Definition NOW_STRING : string := "now".

(** [UNITS.includes(unit)] *)
Definition UNITS_includes (unit : string) : bool :=
  existsb (String.eqb unit) UNITS.

(** ** isNumber

    [/^-?\d+\.?\d*$/.test(String(input))], for string input. *)
Definition isNumber (input : string) : bool :=
  let s := match input with String "-" r => r | _ => input end in
  startsWithDigit s &&
  (let r := dropDigits s in
   let r := match r with String "." r' => r' | _ => r end in
   match dropDigits r with EmptyString => true | _ => false end).

(** ** The calendar collaborator

    [moment_wrapper] is imported, not defined, by the module: the
    operations the module calls on a [DateTime] are taken as an interface.
    A [DateTime] object is mutable; each mutator is given as the function
    from the object's state before the call to its state after it. *)

Class Calendar (DT : Type) : Type := {
  add : jsval -> string -> DT -> DT;       (* dateTime.add(num, unit) *)
  subtract : jsval -> string -> DT -> DT;  (* dateTime.subtract(num, unit) *)
  startOf : string -> DT -> DT;            (* dateTime.startOf(unit) *)
  endOf : string -> DT -> DT;              (* dateTime.endOf(unit) *)
  month : DT -> Z                          (* dateTime.month(), 0..11 *)
}.

(** The constructors [parse] uses: the zone-aware clock, the strict
    ISO-8601 parser and the conversion from a native [Date]. *)
Class Clock (DT Date : Type) : Type := {
  dateTimeForTimeZone : option string -> DT;
  dateTimeISO : string -> DT;
  dateTimeOfDate : Date -> DT
}.

(** How a call on the single [time] object ends: it returns that very
    object, it returns [undefined], or a [TypeError] is thrown. *)
Inductive ret : Type :=
| Returned
| Undefined
| Threw.

(** One pass of the scanner either moves on or leaves the function. *)
Inductive step (DT : Type) : Type :=
| Next (i : nat) (dt : DT)
| Stop (r : ret) (dt : DT).
Arguments Next {DT} i dt.
Arguments Stop {DT} r dt.

(** The text of one operation as the scanner reads it. *)
Record token : Type := Token {
  tok_type : option Z;
  tok_num : jsval;
  tok_isFiscal : bool;
  tok_unit : string
}.

(** *** The scanner (closures of [parseDateMath] over the cursor [i]) *)

Section Scanner.

Variable strippedMathString : string.

(** [nextChar]: [strippedMathString.charAt(i++)] *)
Definition nextChar (i : nat) : string * nat :=
  (charAt strippedMathString i, S i).

(** The [while (!isNumber(nextChar()))] loop of [getNum]; [inl i] when
    the loop is left normally, [inr i] when [undefined] is returned from
    inside it, [None] when the fuel is used up. *)
Fixpoint getNum_loop (fuel : nat) (i : nat) : option (nat + nat) :=
  match fuel with
  | O => None
  | S fuel' =>
      let '(c, i) := nextChar i in
      if negb (isNumber c) then
        if (MAX_DATE_MATH_STRING_LENGTH <? i)%nat then Some (inr i)
        else getNum_loop fuel' i
      else Some (inl i)
  end.

(** [getNum] *)
Definition getNum (i : nat) : option (jsval * nat) :=
  if negb (isNumber (charAt strippedMathString i)) then Some (JNum 1, i)
  else if (String.length strippedMathString =? 2)%nat then
    Some (parseInt (charAt strippedMathString i), i)
  else
    let numFrom := i in
    match getNum_loop (MAX_DATE_MATH_STRING_LENGTH + 2) i with
    | None => None
    | Some (inr i) => Some (JUndefined, i)
    | Some (inl i) =>
        Some (parseInt (JS.substring strippedMathString numFrom i), i)
    end.

(** Lines 137-141: operator, count, fiscal flag and unit. *)
Definition readToken (i : nat) : option (token * nat) :=
  let '(c, i) := nextChar i in
  let type := MATH_OP_TYPE_MAP c in
  match getNum i with
  | None => None
  | Some (num, i) =>
      let '(char, i) := nextChar i in
      let isFiscal := String.eqb char "f" in
      let '(unit, i) := if isFiscal then nextChar i else (char, i) in
      Some (Token type num isFiscal unit, i)
  end.

End Scanner.

(** Lines 143-148: the test that makes [parseDateMath] return
    [undefined]. *)
Definition rejected (t : token) : bool :=
  match tok_type t with None => true | Some _ => false end
  || (match tok_type t with Some 0 => true | _ => false end
      && negb (jsval_eqb (tok_num t) (JNum 1)))
  || negb (UNITS_includes (tok_unit t)).

Section DateMath.

Context {DT : Type} `{Calendar DT}.

(** [roundToFiscal]; the recursion is bounded by [fuel].  The state of
    [dateTime] after the call is returned with the way the call ends. *)
Fixpoint roundToFiscal_rec (fuel : nat) (fyStartMonth : Z) (dateTime : DT)
    (unit : string) (roundUp : bool) : option (ret * DT) :=
  match fuel with
  | O => None
  | S fuel' =>
      if String.eqb unit "y" then
        if roundUp then
          match roundToFiscal_rec fuel' fyStartMonth dateTime unit false with
          | None => None
          | Some (Returned, dt) => Some (Returned, endOf "M" (add (JNum 11) "M" dt))
          | Some (_, dt) => Some (Threw, dt)
          end
        else
          Some (Returned,
                startOf "M"
                  (subtract (JNum (Z.rem (month dateTime - fyStartMonth + 12) 12))
                     "M" dateTime))
      else if String.eqb unit "Q" then
        if roundUp then
          match roundToFiscal_rec fuel' fyStartMonth dateTime unit false with
          | None => None
          | Some (Returned, dt) => Some (Returned, endOf "M" (add (JNum 2) "M" dt))
          | Some (_, dt) => Some (Threw, dt)
          end
        else
          Some (Returned,
                startOf "M"
                  (subtract (JNum (Z.rem (month dateTime - fyStartMonth + 3) 3))
                     "M" dateTime))
      else Some (Undefined, dateTime)
  end.

Definition roundToFiscal := roundToFiscal_rec 2.

(** Lines 152-172: the effect of an accepted operation on [dateTime]. *)
Definition applyToken (roundUp : bool) (fiscalYearStartMonth : Z)
    (t : token) (i : nat) (dateTime : DT) : option (step DT) :=
  match tok_type t with
  | Some 0 =>
      if tok_isFiscal t then
        match roundToFiscal fiscalYearStartMonth dateTime (tok_unit t) roundUp with
        | None => None
        | Some (Threw, dt) => Some (Stop Threw dt)
        | Some (_, dt) => Some (Next i dt)
        end
      else if roundUp then Some (Next i (endOf (tok_unit t) dateTime))
      else Some (Next i (startOf (tok_unit t) dateTime))
  | Some 1 => Some (Next i (add (tok_num t) (tok_unit t) dateTime))
  | Some 2 => Some (Next i (subtract (tok_num t) (tok_unit t) dateTime))
  | _ => Some (Next i dateTime)
  end.

(** The body of [while (i < len)]. *)
Definition iteration (s : string) (roundUp : bool) (fiscalYearStartMonth : Z)
    (i : nat) (dateTime : DT) : option (step DT) :=
  match readToken s i with
  | None => None
  | Some (t, i) =>
      if rejected t then Some (Stop Undefined dateTime)
      else applyToken roundUp fiscalYearStartMonth t i dateTime
  end.

Fixpoint parseDateMath_loop (fuel : nat) (s : string) (roundUp : bool)
    (fiscalYearStartMonth : Z) (i : nat) (dateTime : DT) : option (ret * DT) :=
  match fuel with
  | O => None
  | S fuel' =>
      if (i <? String.length s)%nat then
        match iteration s roundUp fiscalYearStartMonth i dateTime with
        | None => None
        | Some (Stop r dt) => Some (r, dt)
        | Some (Next i dt) =>
            parseDateMath_loop fuel' s roundUp fiscalYearStartMonth i dt
        end
      else Some (Returned, dateTime)
  end.

(** [parseDateMath(mathString, time, roundUp, fiscalYearStartMonth)].
    [dateTime] is an alias of the caller's [time]: the second component
    of the result is the state the caller's object is left in, and
    [Returned] means that this same object is the value returned.
    An [undefined] [roundUp] is falsy and is given as [false]. *)
Definition parseDateMath (mathString : string) (time : DT) (roundUp : bool)
    (fiscalYearStartMonth : Z) : option (ret * DT) :=
  let strippedMathString := stripSpaces mathString in
  parseDateMath_loop (S (String.length strippedMathString))
    strippedMathString roundUp fiscalYearStartMonth 0%nat time.

(** The state an accepted operation leaves the timestamp in. *)
Definition effect (roundUp : bool) (fiscalYearStartMonth : Z)
    (dateTime : DT) (t : token) : DT :=
  match applyToken roundUp fiscalYearStartMonth t 0%nat dateTime with
  | Some (Next _ dt) => dt
  | _ => dateTime
  end.

(** The decimal text of a count. *)
Definition decimal (n : nat) : string := NilEmpty.string_of_uint (Nat.to_uint n).

(** [evaluateMath("-{n}{u}", evaluateMath("+{n}{u}", T))]: both calls act
    on the one [time] object. *)
Definition addThenSubtract (n : nat) (u : string) (T : DT) (roundUp : bool)
    (fy : Z) : option (ret * DT) :=
  match parseDateMath ("+" ++ decimal n ++ u) T roundUp fy with
  | Some (Returned, T1) => parseDateMath ("-" ++ decimal n ++ u) T1 roundUp fy
  | other => other
  end.

End DateMath.

(** ** The scan without the timestamp

    Which operations [parseDateMath] reads, and whether it reaches the end
    of the text, is decided by the text alone. [scan] collects the
    operations accepted from cursor [i] on and tells whether the scan ended
    at the end of the text ([true]) or on a rejected operation ([false]). *)

Fixpoint scan (fuel : nat) (s : string) (i : nat) : list token * bool :=
  match fuel with
  | O => ([], false)
  | S fuel' =>
      if (i <? String.length s)%nat then
        match readToken s i with
        | None => ([], false)
        | Some (t, i) =>
            if rejected t then ([], false)
            else let '(ts, ok) := scan fuel' s i in (t :: ts, ok)
        end
      else ([], true)
  end.

(** The operations of a math string that precede its end or its first
    rejected operation. *)
Definition accepted (mathString : string) : list token :=
  let s := stripSpaces mathString in fst (scan (S (String.length s)) s 0).

(** A math string is malformed when the scan meets a rejected operation:
    an unknown operator, a count other than 1 on a rounding, or an unknown
    unit. *)
Definition malformed (mathString : string) : bool :=
  let s := stripSpaces mathString in negb (snd (scan (S (String.length s)) s 0)).

(** The scan as a relation on cursor positions: [scans s i ts k] when the
    operations [ts] are read and accepted one after the other from cursor
    [i], which leaves the cursor at [k]. *)
Inductive scans (s : string) : nat -> list token -> nat -> Prop :=
| scans_done (i : nat) : scans s i [] i
| scans_step (i j k : nat) (t : token) (ts : list token) :
    (i < String.length s)%nat ->
    readToken s i = Some (t, j) ->
    rejected t = false ->
    scans s j ts k ->
    scans s i (t :: ts) k.

(** The operation read at cursor [k] is rejected. *)
Definition rejects_at (s : string) (k : nat) : Prop :=
  (k < String.length s)%nat /\
  exists t j, readToken s k = Some (t, j) /\ rejected t = true.

(** Strings made of decimal digits only. *)
Fixpoint allDigits (s : string) : bool :=
  match s with
  | EmptyString => true
  | String c s' => isDigit c && allDigits s'
  end.

(** A character that is no operator, no digit, no fiscal flag and no
    unit, such as [|]. *)
Definition foreign (c : ascii) : bool :=
  match MATH_OP_TYPE_MAP (String c "") with None => true | Some _ => false end
  && negb (isDigit c)
  && negb (String.eqb (String c "") "f")
  && negb (UNITS_includes (String c "")).

(** ** isMathString and parse *)

(** The argument of [isMathString] and [parse]:
    [string | DateTime | Date | null | undefined]. *)
Inductive text_input (DT Date : Type) : Type :=
| TextString (s : string)
| TextDateTime (dt : DT)
| TextDate (d : Date)
| TextNullish.
Arguments TextString {DT Date} s.
Arguments TextDateTime {DT Date} dt.
Arguments TextDate {DT Date} d.
Arguments TextNullish {DT Date}.

(** What [parse] hands back: [DateTime | undefined], or a thrown error. *)
Inductive value (DT : Type) : Type :=
| VDateTime (dt : DT)
| VUndefined
| VTypeError.
Arguments VDateTime {DT} dt.
Arguments VUndefined {DT}.
Arguments VTypeError {DT}.

Definition value_of_call {DT : Type} (r : ret * DT) : value DT :=
  match r with
  | (Returned, dt) => VDateTime dt
  | (Undefined, _) => VUndefined
  | (Threw, _) => VTypeError
  end.

(** [isMathString] *)
Definition isMathString {DT Date : Type} (text : text_input DT Date) : bool :=
  match text with
  | TextString text => startsWith text NOW_STRING || includes text "||"
  | _ => false
  end.

(** [const [left, right] = text.split('||')] *)
Definition split_left (text : string) : string := nth 0 (JS.split text) "".
Definition split_right (text : string) : option string := nth_error (JS.split text) 1.

(** [!right] *)
Definition falsy (right : option string) : bool :=
  match right with
  | None => true
  | Some r => String.eqb r ""
  end.

(** [getMathString] *)
Definition getMathString (text : string) : string :=
  if startsWith text NOW_STRING
  then substringFrom text (String.length NOW_STRING)
  else match split_right text with Some r => r | None => "" end.

(** The reading of the specification: the math string of a [now] text is
    what stands between the [now] prefix and the first [||]. *)
Definition mathString_up_to_separator (text : string) : string :=
  split_left (substringFrom text (String.length NOW_STRING)).

Section Parse.

Context {DT Date : Type} `{Calendar DT} `{Clock DT Date}.

(** [getTime] *)
Definition getTime (text : string) (timezone : option string) : DT :=
  if startsWith text NOW_STRING then dateTimeForTimeZone timezone
  else dateTimeISO (if falsy (split_right text) then text else split_left text).

(** [parse(text, roundUp, timezone, fiscalYearStartMonth)]; a missing
    [fiscalYearStartMonth] takes [parseDateMath]'s default 0. *)
Definition parse (text : text_input DT Date) (roundUp : bool)
    (timezone : option string) (fiscalYearStartMonth : option Z)
    : option (value DT) :=
  match text with
  | TextDateTime dt => Some (VDateTime dt)
  | TextDate d => Some (VDateTime (dateTimeOfDate d))
  | TextNullish => Some VUndefined
  | TextString text =>
      if String.eqb text "" then Some VUndefined
      else
        let time := getTime text timezone in
        let mathString := getMathString text in
        if String.eqb mathString "" then Some (VDateTime time)
        else
          option_map value_of_call
            (parseDateMath mathString time roundUp
               (match fiscalYearStartMonth with Some m => m | None => 0 end))
  end.

End Parse.

(** ** isValid *)

(** [date.isValid()], the one further call [isValid] makes on the
    collaborator. *)
Class Validity (DT : Type) : Type := {
  dateIsValid : DT -> bool
}.

Section IsValid.

Context {DT Date : Type} `{Calendar DT} `{Clock DT Date} `{Validity DT}.

(** [isValid(text)]: [parse] is called with the text alone. [None] when
    the call does not return a boolean. *)
Definition isValid (text : text_input DT Date) : option bool :=
  match parse text false None None with
  | Some (VDateTime date) => Some (dateIsValid date)
  | Some VUndefined => Some false
  | _ => None
  end.

End IsValid.

(** ** A reference calendar

    Modelled from the spec: the calendar collaborator ([moment_wrapper],
    which is not part of this module) "supporting add(count, unit),
    subtract(count, unit), startOf(unit), endOf(unit)".  The instance below
    is the proleptic Gregorian calendar in UTC on milliseconds since the
    epoch, with weeks starting on Sunday; month arithmetic clamps the day
    of the month.  It is used to run the module on concrete timestamps. *)

Module Utc.

Definition msPerDay : Z := 86400000.

(** Days since 1970-01-01 of the civil date [y]-[m]-[d], [m] in 1..12. *)
Definition days_from_civil (y m d : Z) : Z :=
  let y := if m <=? 2 then y - 1 else y in
  let era := y / 400 in
  let yoe := y - era * 400 in
  let doy := (153 * (if 2 <? m then m - 3 else m + 9) + 2) / 5 + d - 1 in
  let doe := yoe * 365 + yoe / 4 - yoe / 100 + doy in
  era * 146097 + doe - 719468.

Definition civil_from_days (z : Z) : Z * Z * Z :=
  let z := z + 719468 in
  let era := z / 146097 in
  let doe := z - era * 146097 in
  let yoe := (doe - doe / 1460 + doe / 36524 - doe / 146096) / 365 in
  let y := yoe + era * 400 in
  let doy := doe - (365 * yoe + yoe / 4 - yoe / 100) in
  let mp := (5 * doy + 2) / 153 in
  let d := doy - (153 * mp + 2) / 5 + 1 in
  let m := if mp <? 10 then mp + 3 else mp - 9 in
  ((if m <=? 2 then y + 1 else y), m, d).

Definition daysInMonth (y m : Z) : Z :=
  let '(y', m') := if m =? 12 then (y + 1, 1) else (y, m + 1) in
  days_from_civil y' m' 1 - days_from_civil y m 1.

(** Timestamp of [y]-[m]-[d] [hh]:[mm]:[ss].[ms] UTC. *)
Definition utc (y m d hh mm ss ms : Z) : Z :=
  days_from_civil y m d * msPerDay + hh * 3600000 + mm * 60000 + ss * 1000 + ms.

Definition addMonths (k : Z) (t : Z) : Z :=
  let '(y, m, d) := civil_from_days (t / msPerDay) in
  let total := y * 12 + (m - 1) + k in
  let y' := total / 12 in
  let m' := total mod 12 + 1 in
  days_from_civil y' m' (Z.min d (daysInMonth y' m')) * msPerDay + t mod msPerDay.

Definition shift (n : Z) (unit : string) (t : Z) : Z :=
  if String.eqb unit "s" then t + n * 1000
  else if String.eqb unit "m" then t + n * 60000
  else if String.eqb unit "h" then t + n * 3600000
  else if String.eqb unit "d" then t + n * msPerDay
  else if String.eqb unit "w" then t + n * 7 * msPerDay
  else if String.eqb unit "M" then addMonths n t
  else if String.eqb unit "Q" then addMonths (3 * n) t
  else if String.eqb unit "y" then addMonths (12 * n) t
  else t.

Definition utc_month (t : Z) : Z :=
  let '(_, m, _) := civil_from_days (t / msPerDay) in m - 1.

Definition utc_startOf (unit : string) (t : Z) : Z :=
  let day := t / msPerDay in
  let '(y, m, _) := civil_from_days day in
  if String.eqb unit "s" then t - t mod 1000
  else if String.eqb unit "m" then t - t mod 60000
  else if String.eqb unit "h" then t - t mod 3600000
  else if String.eqb unit "d" then day * msPerDay
  else if String.eqb unit "w" then (day - (day + 4) mod 7) * msPerDay
  else if String.eqb unit "M" then days_from_civil y m 1 * msPerDay
  else if String.eqb unit "Q" then days_from_civil y (m - (m - 1) mod 3) 1 * msPerDay
  else if String.eqb unit "y" then days_from_civil y 1 1 * msPerDay
  else t.

Definition utc_endOf (unit : string) (t : Z) : Z :=
  if UNITS_includes unit
  then utc_startOf unit (shift 1 unit (utc_startOf unit t)) - 1
  else t.

Definition count (num : jsval) : Z :=
  match num with JNum n => n | _ => 0 end.

(** Modelled from the spec: the calendar collaborator's [add], [subtract],
    [startOf], [endOf] and [month], which [moment_wrapper] supplies.  A
    count that is not a number shifts nothing. *)
#[export] Instance calendar : Calendar Z := {
  add num unit t := shift (count num) unit t;
  subtract num unit t := shift (- count num) unit t;
  startOf := utc_startOf;
  endOf := utc_endOf;
  month := utc_month
}.

(** Modelled from the spec: the collaborator's "current instant" and
    strict ISO-8601 constructors.  The clock is stopped at 2021-06-15
    12:30:45.500 UTC; only the two dates used below are read, any other
    text is the epoch. *)
#[export] Instance clock : Clock Z Z := {
  dateTimeForTimeZone _ := utc 2021 6 15 12 30 45 500;
  dateTimeISO s :=
    if String.eqb s "2021-01-01" then utc 2021 1 1 0 0 0 0
    else if String.eqb s "2021-06-15" then utc 2021 6 15 0 0 0 0
    else 0;
  dateTimeOfDate d := d
}.

(** Modelled from the spec: the collaborator's validity test; every
    timestamp of the reference calendar is a valid date. *)
#[export] Instance validity : Validity Z := {
  dateIsValid _ := true
}.

End Utc.

(** ** The module on the reference calendar *)

Module OnUtc.

Import Utc.

Definition evaluateMath := @parseDateMath Z Utc.calendar.

(** 2021-06-15 12:30:45.500 UTC *)
Definition june15 : Z := utc 2021 6 15 12 30 45 500.

(** 2021-01-15 00:00:00.000 UTC *)
Definition january15 : Z := utc 2021 1 15 0 0 0 0.

End OnUtc.

(** ** The grammar the scanner accepts

    An operation as a text: an operator, an optional count of one digit,
    an optional fiscal flag, a unit.  [render] writes it, [token_of] is
    what the scanner is to read back. *)

Inductive kind : Type := Round | Add | Subtract.

Record operation : Type := Operation {
  op_kind : kind;
  op_count : option nat;
  op_fiscal : bool;
  op_unit : string
}.

Definition kind_text (k : kind) : string :=
  match k with Round => "/" | Add => "+" | Subtract => "-" end.

Definition kind_code (k : kind) : Z :=
  match k with Round => 0 | Add => 1 | Subtract => 2 end.

Definition render (o : operation) : string :=
  kind_text (op_kind o)
  ++ match op_count o with Some n => NilEmpty.string_of_uint (Nat.to_uint n) | None => "" end
  ++ (if op_fiscal o then "f" else "")
  ++ op_unit o.

Definition token_of (o : operation) : token :=
  Token (Some (kind_code (op_kind o)))
        (JNum (match op_count o with Some n => Z.of_nat n | None => 1 end))
        (op_fiscal o) (op_unit o).

(** The operations the scanner accepts: a known unit, a count of one
    digit, and on a rounding no count but 1. *)
Definition op_valid (o : operation) : bool :=
  UNITS_includes (op_unit o)
  && match op_count o with Some n => (n <=? 9)%nat | None => true end
  && match op_kind o, op_count o with
     | Round, Some n => (n =? 1)%nat
     | _, _ => true
     end.

Fixpoint render_all (ops : list operation) : string :=
  match ops with
  | [] => ""
  | o :: ops' => render o ++ render_all ops'
  end.

Section Perform.

Context {DT : Type} `{Calendar DT}.

(** What an operation is to do to the timestamp. *)
Definition perform (roundUp : bool) (fiscalYearStartMonth : Z) (T : DT)
    (o : operation) : DT :=
  let n := JNum (match op_count o with Some n => Z.of_nat n | None => 1 end) in
  match op_kind o with
  | Add => add n (op_unit o) T
  | Subtract => subtract n (op_unit o) T
  | Round =>
      if op_fiscal o then
        match roundToFiscal fiscalYearStartMonth T (op_unit o) roundUp with
        | Some (_, T') => T'
        | None => T
        end
      else if roundUp then endOf (op_unit o) T
      else startOf (op_unit o) T
  end.

End Perform.

(** Texts without the character [|]. *)
Fixpoint noBar (s : string) : bool :=
  match s with
  | EmptyString => true
  | String c s' => negb (Ascii.eqb c "|") && noBar s'
  end.

(** Texts of white space only. *)
Fixpoint allSpaces (s : string) : bool :=
  match s with
  | EmptyString => true
  | String c s' => isSpace c && allSpaces s'
  end.

(** ** Facts about characters and the string primitives *)

Section Characters.

Ltac by_cases_on c :=
  destruct c as [[] [] [] [] [] [] [] []]; vm_compute; intros; congruence.

Lemma isNumber_char (c : ascii) : isNumber (String c "") = isDigit c.
Proof. by_cases_on c. Qed.

Lemma isNumber_empty : isNumber "" = false.
Proof. reflexivity. Qed.

Lemma parseInt_digit (c : ascii) :
  isDigit c = true -> parseInt (String c "") = JNum (digitValue c).
Proof. by_cases_on c. Qed.

Lemma digit_not_space (c : ascii) : isDigit c = true -> isSpace c = false.
Proof. by_cases_on c. Qed.

Lemma digit_not_f (c : ascii) :
  isDigit c = true -> String.eqb (String c "") "f" = false.
Proof. by_cases_on c. Qed.

Lemma digit_not_unit (c : ascii) :
  isDigit c = true -> UNITS_includes (String c "") = false.
Proof. by_cases_on c. Qed.

Lemma digit_not_operator (c : ascii) :
  isDigit c = true -> MATH_OP_TYPE_MAP (String c "") = None.
Proof. by_cases_on c. Qed.

Lemma digitValue_range (c : ascii) :
  isDigit c = true -> 0 <= digitValue c <= 9.
Proof.
  destruct c as [[] [] [] [] [] [] [] []]; vm_compute;
    intuition congruence.
Qed.

End Characters.

Lemma charAt_get (s : string) (i : nat) (c : ascii) :
  String.get i s = Some c -> charAt s i = String c "".
Proof. unfold charAt. now intros ->. Qed.

Lemma charAt_past (s : string) (i : nat) :
  String.get i s = None -> charAt s i = "".
Proof. unfold charAt. now intros ->. Qed.

Lemma substring_one (s : string) (i : nat) (c : ascii) :
  String.get i s = Some c -> JS.substring s i (S i) = String c "".
Proof.
  unfold JS.substring.
  replace (Nat.min i (S i)) with i by lia.
  replace (Nat.max i (S i) - i)%nat with 1%nat by lia.
  revert i. induction s as [|a s IH]; intros [|i]; simpl; try discriminate.
  - intros [= ->]. now destruct s.
  - apply IH.
Qed.

(** ** The count reader

    The loop of [getNum] starts on the character [getNum] has just found
    to be a digit, so it is left after that one character: the count is a
    single digit. *)

Lemma getNum_loop_digit (s : string) (fuel i : nat) (c : ascii) :
  String.get i s = Some c -> isDigit c = true ->
  getNum_loop s (S fuel) i = Some (inl (S i)).
Proof.
  intros Hget Hd. simpl. rewrite (charAt_get _ _ _ Hget), isNumber_char, Hd.
  reflexivity.
Qed.

Lemma getNum_digit (s : string) (i : nat) (c : ascii) :
  String.get i s = Some c -> isDigit c = true ->
  getNum s i =
    Some (JNum (digitValue c), if (String.length s =? 2)%nat then i else S i).
Proof.
  intros Hget Hd. unfold getNum.
  rewrite (charAt_get _ _ _ Hget), isNumber_char, Hd. simpl negb. cbv iota.
  destruct (String.length s =? 2)%nat.
  - now rewrite parseInt_digit.
  - change (MAX_DATE_MATH_STRING_LENGTH + 2)%nat with 12%nat.
    rewrite (getNum_loop_digit s 11 i c Hget Hd).
    now rewrite (substring_one _ _ _ Hget), parseInt_digit.
Qed.

Lemma getNum_not_digit (s : string) (i : nat) :
  match String.get i s with Some c => isDigit c = false | None => True end ->
  getNum s i = Some (JNum 1, i).
Proof.
  intros Hc. unfold getNum, charAt.
  destruct (String.get i s) as [c|].
  - now rewrite isNumber_char, Hc.
  - reflexivity.
Qed.

(** [getNum] always yields a number, and moves the cursor by at most one. *)
Lemma getNum_total (s : string) (i : nat) :
  exists n i', getNum s i = Some (JNum n, i') /\ (i <= i' <= S i)%nat.
Proof.
  destruct (String.get i s) as [c|] eqn:Hget.
  - destruct (isDigit c) eqn:Hd.
    + rewrite (getNum_digit s i c Hget Hd). do 2 eexists. split; [reflexivity|].
      destruct (String.length s =? 2)%nat; lia.
    + rewrite getNum_not_digit by now rewrite Hget.
      do 2 eexists. split; [reflexivity|lia].
  - rewrite getNum_not_digit by now rewrite Hget.
    do 2 eexists. split; [reflexivity|lia].
Qed.

Lemma readToken_total (s : string) (i : nat) :
  exists t i', readToken s i = Some (t, i') /\ (i + 2 <= i')%nat.
Proof.
  unfold readToken, nextChar.
  destruct (getNum_total s (S i)) as (n & i1 & -> & Hi1).
  destruct (String.eqb (charAt s i1) "f"); do 2 eexists; (split; [reflexivity|lia]).
Qed.

(** ** The scan

    An operation is rejected for one of three reasons: its operator, its
    count, its unit. *)
Lemma rejected_iff (t : token) :
  rejected t = true <->
    tok_type t = None \/
    (tok_type t = Some 0 /\ tok_num t <> JNum 1) \/
    ~ In (tok_unit t) UNITS.
Proof.
  unfold rejected. rewrite !orb_true_iff, andb_true_iff, !negb_true_iff.
  assert (Hu : UNITS_includes (tok_unit t) = false <-> ~ In (tok_unit t) UNITS).
  { unfold UNITS_includes. rewrite <- not_true_iff_false, existsb_exists.
    split; intros Hn Hin; apply Hn.
    - exists (tok_unit t). split; [exact Hin|apply String.eqb_refl].
    - destruct Hin as (x & Hx & Heq). apply String.eqb_eq in Heq. now subst. }
  assert (Hn : jsval_eqb (tok_num t) (JNum 1) = false <-> tok_num t <> JNum 1).
  { destruct (tok_num t) as [z| |]; simpl; try (split; congruence).
    rewrite Z.eqb_neq. split; congruence. }
  rewrite Hu, Hn. destruct (tok_type t) as [[|p|p]|]; intuition congruence.
Qed.

(** [scan] computes the relation [scans]: with enough fuel it ends either
    at the end of the text or on a rejected operation. *)
Lemma scan_scans (s : string) :
  forall (fuel i : nat),
    (String.length s - i < fuel)%nat ->
    exists k, scans s i (fst (scan fuel s i)) k /\
              (if snd (scan fuel s i) then (String.length s <= k)%nat
               else rejects_at s k).
Proof.
  induction fuel as [|fuel IH]; intros i Hlen; [lia|].
  simpl. destruct (Nat.ltb_spec i (String.length s)) as [Hi|Hi].
  - destruct (readToken_total s i) as (t & j & Hr & Hj). rewrite Hr.
    destruct (rejected t) eqn:Hrej.
    + exists i. split; [constructor|]. split; [exact Hi|now exists t, j].
    + destruct (IH j ltac:(lia)) as (k & Hs & Hk).
      destruct (scan fuel s j) as [ts ok]. exists k. split; [|exact Hk].
      now apply scans_step with j.
  - exists i. split; [constructor|exact Hi].
Qed.

Lemma scans_rejected_scan (s : string) (i k : nat) (ts : list token) :
  scans s i ts k -> rejects_at s k ->
  forall fuel, (String.length s - i < fuel)%nat -> scan fuel s i = (ts, false).
Proof.
  intros Hs (Hk & t & j & Hr & Hrej).
  induction Hs as [i|i j' k t' ts Hi Hr' Hrej' Hs IH]; intros [|fuel] Hlen; try lia.
  - simpl. destruct (Nat.ltb_spec i (String.length s)); [|lia].
    now rewrite Hr, Hrej.
  - simpl. destruct (Nat.ltb_spec i (String.length s)); [|lia].
    rewrite Hr', Hrej'.
    destruct (readToken_total s i) as (t0 & j0 & Hr0 & Hj0).
    assert (j0 = j') by congruence. subst j0.
    now rewrite (IH Hk Hr fuel ltac:(lia)).
Qed.

Lemma scans_end_scan (s : string) (i k : nat) (ts : list token) :
  scans s i ts k -> (String.length s <= k)%nat ->
  forall fuel, (String.length s - i < fuel)%nat -> scan fuel s i = (ts, true).
Proof.
  intros Hs Hk.
  induction Hs as [i|i j' k t' ts Hi Hr' Hrej' Hs IH]; intros [|fuel] Hlen; try lia.
  - simpl. destruct (Nat.ltb_spec i (String.length s)); [lia|reflexivity].
  - simpl. destruct (Nat.ltb_spec i (String.length s)); [|lia].
    rewrite Hr', Hrej'.
    destruct (readToken_total s i) as (t0 & j0 & Hr0 & Hj0).
    assert (j0 = j') by congruence. subst j0.
    now rewrite (IH Hk fuel ltac:(lia)).
Qed.

(** A math string is malformed exactly when the scan, after some accepted
    operations, arrives at a rejected one. *)
Lemma malformed_iff (mathString : string) :
  malformed mathString = true <->
  exists ts k, scans (stripSpaces mathString) 0 ts k /\
               rejects_at (stripSpaces mathString) k /\
               accepted mathString = ts.
Proof.
  unfold malformed, accepted. set (s := stripSpaces mathString). split.
  - intros Hm. destruct (scan_scans s (S (String.length s)) 0 ltac:(lia))
      as (k & Hs & Hk).
    apply negb_true_iff in Hm. rewrite Hm in Hk. now eauto.
  - intros (ts & k & Hs & Hk & _).
    now rewrite (scans_rejected_scan s 0 k ts Hs Hk (S (String.length s)) ltac:(lia)).
Qed.

Section DateMathFacts.

Context {DT : Type} `{Calendar DT}.

(** *** roundToFiscal *)

Lemma roundToFiscal_down (fy : Z) (dt : DT) (unit : string) (fuel : nat) :
  roundToFiscal_rec (S fuel) fy dt unit false =
    Some (if String.eqb unit "y" then
            (Returned,
             startOf "M" (subtract (JNum (Z.rem (month dt - fy + 12) 12)) "M" dt))
          else if String.eqb unit "Q" then
            (Returned,
             startOf "M" (subtract (JNum (Z.rem (month dt - fy + 3) 3)) "M" dt))
          else (Undefined, dt)).
Proof.
  simpl. destruct (String.eqb unit "y"); [reflexivity|].
  now destruct (String.eqb unit "Q").
Qed.

Lemma roundToFiscal_up (fy : Z) (dt : DT) (unit : string) (fuel : nat) :
  roundToFiscal_rec (S (S fuel)) fy dt unit true =
    Some (if String.eqb unit "y" then
            (Returned,
             endOf "M" (add (JNum 11) "M"
               (startOf "M"
                  (subtract (JNum (Z.rem (month dt - fy + 12) 12)) "M" dt))))
          else if String.eqb unit "Q" then
            (Returned,
             endOf "M" (add (JNum 2) "M"
               (startOf "M"
                  (subtract (JNum (Z.rem (month dt - fy + 3) 3)) "M" dt))))
          else (Undefined, dt)).
Proof.
  change (roundToFiscal_rec (S (S fuel)) fy dt unit true) with
    (if String.eqb unit "y" then
       match roundToFiscal_rec (S fuel) fy dt unit false with
       | None => None
       | Some (Returned, dt) => Some (Returned, endOf "M" (add (JNum 11) "M" dt))
       | Some (_, dt) => Some (Threw, dt)
       end
     else if String.eqb unit "Q" then
       match roundToFiscal_rec (S fuel) fy dt unit false with
       | None => None
       | Some (Returned, dt) => Some (Returned, endOf "M" (add (JNum 2) "M" dt))
       | Some (_, dt) => Some (Threw, dt)
       end
     else Some (Undefined, dt)).
  rewrite roundToFiscal_down.
  destruct (String.eqb unit "y") eqn:Hy; [reflexivity|].
  now destruct (String.eqb unit "Q").
Qed.

(** [roundToFiscal] returns, never throws, and leaves the timestamp alone
    exactly when it answers [undefined]. *)
Lemma roundToFiscal_total (fy : Z) (dt : DT) (unit : string) (roundUp : bool) :
  exists r dt', roundToFiscal fy dt unit roundUp = Some (r, dt') /\ r <> Threw
                /\ (r = Undefined -> dt' = dt).
Proof.
  unfold roundToFiscal. destruct roundUp.
  - rewrite roundToFiscal_up.
    destruct (String.eqb unit "y"); [|destruct (String.eqb unit "Q")];
      do 2 eexists; (split; [reflexivity|split; congruence]).
  - rewrite roundToFiscal_down.
    destruct (String.eqb unit "y"); [|destruct (String.eqb unit "Q")];
      do 2 eexists; (split; [reflexivity|split; congruence]).
Qed.

(** One level of recursion is needed for rounding up, and none for
    rounding down. *)
Lemma roundToFiscal_depth (fy : Z) (dt : DT) (unit : string) :
  (String.eqb unit "y" || String.eqb unit "Q" = true ->
   roundToFiscal_rec 1 fy dt unit true = None) /\
  roundToFiscal_rec 1 fy dt unit false <> None /\
  (forall fuel roundUp,
      roundToFiscal_rec (S (S fuel)) fy dt unit roundUp =
      roundToFiscal_rec 2 fy dt unit roundUp).
Proof.
  split; [|split].
  - simpl. destruct (String.eqb unit "y"); [reflexivity|].
    destruct (String.eqb unit "Q"); [reflexivity|discriminate].
  - rewrite roundToFiscal_down. discriminate.
  - intros fuel [|].
    + now rewrite (roundToFiscal_up fy dt unit fuel), (roundToFiscal_up fy dt unit 0).
    + now rewrite (roundToFiscal_down fy dt unit (S fuel)),
        (roundToFiscal_down fy dt unit 1).
Qed.

(** *** The main loop *)

Lemma applyToken_effect (roundUp : bool) (fy : Z) (t : token) (i : nat) (dt : DT) :
  applyToken roundUp fy t i dt = Some (Next i (effect roundUp fy dt t)).
Proof.
  unfold effect, applyToken.
  destruct (tok_type t) as [[|p|p]|]; try reflexivity.
  - destruct (tok_isFiscal t); [|now destruct roundUp].
    destruct (roundToFiscal_total fy dt (tok_unit t) roundUp)
      as (r & dt' & -> & Hr & _).
    destruct r; [reflexivity|reflexivity|congruence].
  - destruct p as [p|p|]; try reflexivity; now destruct p.
Qed.

Lemma iteration_readToken (s : string) (roundUp : bool) (fy : Z) (i : nat) (dt : DT) :
  exists t i', readToken s i = Some (t, i') /\ (i + 2 <= i')%nat /\
    iteration s roundUp fy i dt =
      Some (if rejected t then Stop Undefined dt
            else Next i' (effect roundUp fy dt t)).
Proof.
  destruct (readToken_total s i) as (t & i' & Hr & Hi).
  exists t, i'. split; [exact Hr|split; [exact Hi|]].
  unfold iteration. rewrite Hr.
  destruct (rejected t); [reflexivity|apply applyToken_effect].
Qed.

(** The loop is the scan followed by the effects of the accepted
    operations, in order. *)
Lemma parseDateMath_loop_scan (s : string) (roundUp : bool) (fy : Z) :
  forall (fuel i : nat) (dt : DT),
    (String.length s - i < fuel)%nat ->
    parseDateMath_loop fuel s roundUp fy i dt =
      Some (if snd (scan fuel s i) then Returned else Undefined,
            fold_left (effect roundUp fy) (fst (scan fuel s i)) dt).
Proof.
  induction fuel as [|fuel IH]; intros i dt Hlen.
  - lia.
  - simpl. destruct (Nat.ltb_spec i (String.length s)) as [Hi|Hi]; [|reflexivity].
    destruct (iteration_readToken s roundUp fy i dt) as (t & i' & Hr & Hi' & ->).
    rewrite Hr. destruct (rejected t); [reflexivity|].
    rewrite IH by lia. now destruct (scan fuel s i').
Qed.

Lemma parseDateMath_scan (mathString : string) (time : DT) (roundUp : bool) (fy : Z) :
  parseDateMath mathString time roundUp fy =
    Some (if malformed mathString then Undefined else Returned,
          fold_left (effect roundUp fy) (accepted mathString) time).
Proof.
  unfold parseDateMath, malformed, accepted.
  rewrite parseDateMath_loop_scan by lia.
  now destruct (snd (scan _ _ _)).
Qed.

(** X1. [parseDateMath] returns on every math string, timestamp, rounding
    flag and fiscal start month: the scan ends, with the timestamp object
    or with [undefined], and no [TypeError] is thrown on the way. *)
Lemma parseDateMath_total (mathString : string) (time : DT) (roundUp : bool) (fy : Z) :
  exists r dt, parseDateMath mathString time roundUp fy = Some (r, dt) /\ r <> Threw.
Proof.
  rewrite parseDateMath_scan. do 2 eexists. split; [reflexivity|].
  destruct (malformed mathString); discriminate.
Qed.

End DateMathFacts.

(** ** Strings: prefixes, occurrences, suffixes *)

Lemma prefix_append (p s : string) :
  String.prefix p s = true <-> exists r, s = p ++ r.
Proof.
  revert s. induction p as [|a p IH]; intros s; simpl.
  - split; [intros _; now exists s|now destruct s].
  - destruct s as [|b s].
    + split; [discriminate|intros [r Hr]; discriminate].
    + simpl. destruct (ascii_dec a b) as [->|Hab].
      * rewrite IH. split; intros [r Hr]; exists r; simpl in *; congruence.
      * split; [discriminate|intros [r Hr]; simpl in Hr; congruence].
Qed.

Lemma includes_append (s p : string) :
  includes s p = true <-> exists a b, s = a ++ p ++ b.
Proof.
  induction s as [|c s IH].
  - change (includes "" p) with (String.prefix p "" || false).
    rewrite orb_false_r, prefix_append. split.
    + intros [r Hr]. now exists "", r.
    + intros (a & b & Hab). destruct a; [now exists b|discriminate].
  - change (includes (String c s) p)
      with (String.prefix p (String c s) || includes s p).
    rewrite orb_true_iff, IH, prefix_append. split.
    + intros [[r Hr]|(a & b & Hab)].
      * now exists "", r.
      * exists (String c a), b. simpl. now rewrite Hab.
    + intros (a & b & Hab). destruct a as [|c' a].
      * left. now exists b.
      * right. exists a, b. simpl in Hab. congruence.
Qed.

Lemma substring_all (s : string) : String.substring 0 (String.length s) s = s.
Proof. induction s; simpl; congruence. Qed.

Lemma substringFrom_now (rest : string) :
  substringFrom (NOW_STRING ++ rest) (String.length NOW_STRING) = rest.
Proof. unfold substringFrom. simpl. rewrite Nat.sub_0_r. apply substring_all. Qed.

(** *** Characters outside the grammar

    Whatever the scan takes a foreign character for, an operator, the
    character after the count, or a unit, the operation it belongs to is
    rejected. *)

Lemma get_lt (s : string) (k : nat) (c : ascii) :
  String.get k s = Some c -> (k < String.length s)%nat.
Proof.
  revert k. induction s as [|a s IH]; intros [|k]; simpl; try discriminate; try lia.
  intros Hk. apply IH in Hk. lia.
Qed.

Lemma rejected_unit (t : token) :
  UNITS_includes (tok_unit t) = false -> rejected t = true.
Proof. intros Hu. unfold rejected. rewrite Hu. apply orb_true_r. Qed.

Lemma foreign_spec (c : ascii) :
  foreign c = true ->
  MATH_OP_TYPE_MAP (String c "") = None /\ isDigit c = false /\
  String.eqb (String c "") "f" = false /\ UNITS_includes (String c "") = false.
Proof.
  unfold foreign. rewrite !andb_true_iff, !negb_true_iff.
  intros [[[Hop Hd] Hf] Hu].
  destruct (MATH_OP_TYPE_MAP (String c "")); [discriminate|]. now repeat split.
Qed.

Lemma readToken_foreign (s : string) (i k j : nat) (c : ascii) (t : token) :
  String.get k s = Some c -> foreign c = true ->
  (i <= k < j)%nat -> readToken s i = Some (t, j) -> rejected t = true.
Proof.
  intros Hget Hfor Hk.
  destruct (foreign_spec c Hfor) as (Hop & Hd & Hf & Hu).
  pose proof (charAt_get s k c Hget) as Hck.
  unfold readToken, nextChar.
  destruct (Nat.eq_dec k i) as [->|Hki].
  { destruct (getNum s (S i)) as [[n i1]|]; [|discriminate].
    destruct (String.eqb (charAt s i1) "f"); intros [= <- _];
      unfold rejected; simpl tok_type; now rewrite Hck, Hop. }
  destruct (String.get (S i) s) as [c1|] eqn:Hg1.
  - destruct (isDigit c1) eqn:Hd1.
    + rewrite (getNum_digit s (S i) c1 Hg1 Hd1).
      assert (Hk1 : k <> S i) by (intros ->; congruence).
      destruct (String.length s =? 2)%nat.
      * rewrite (charAt_get s (S i) c1 Hg1), (digit_not_f c1 Hd1).
        intros [= <- _]. apply rejected_unit. apply (digit_not_unit c1 Hd1).
      * destruct (Nat.eq_dec k (S (S i))) as [->|Hk2].
        { rewrite Hck, Hf. intros [= <- _]. now apply rejected_unit. }
        destruct (String.eqb (charAt s (S (S i))) "f"); intros [= <- <-].
        -- apply rejected_unit. simpl tok_unit.
           replace (S (S (S i))) with k by lia. now rewrite Hck.
        -- lia.
    + rewrite getNum_not_digit by now rewrite Hg1.
      destruct (Nat.eq_dec k (S i)) as [->|Hk1].
      { rewrite Hck, Hf. intros [= <- _]. now apply rejected_unit. }
      destruct (String.eqb (charAt s (S i)) "f"); intros [= <- <-].
      * apply rejected_unit. simpl tok_unit.
        replace (S (S i)) with k by lia. now rewrite Hck.
      * lia.
  - apply get_lt in Hget. assert (Hlen : (String.length s <= S i)%nat).
    { clear - Hg1. revert Hg1. generalize (S i) as m.
      induction s as [|a s IH]; intros [|m]; simpl; try discriminate; try lia.
      intros Hm. apply IH in Hm. lia. }
    lia.
Qed.

Lemma scan_foreign (s : string) (k : nat) (c : ascii) :
  String.get k s = Some c -> foreign c = true ->
  forall (fuel i : nat),
    (i <= k)%nat -> (String.length s - i < fuel)%nat ->
    snd (scan fuel s i) = false.
Proof.
  intros Hget Hfor. pose proof (get_lt s k c Hget) as Hlt.
  induction fuel as [|fuel IH]; intros i Hi Hlen; [lia|].
  simpl. destruct (Nat.ltb_spec i (String.length s)); [|lia].
  destruct (readToken_total s i) as (t & j & Hr & Hj). rewrite Hr.
  destruct (rejected t) eqn:Hrej; [reflexivity|].
  destruct (Nat.lt_ge_cases k j) as [Hkj|Hkj].
  - rewrite (readToken_foreign s i k j c t Hget Hfor ltac:(lia) Hr) in Hrej.
    discriminate.
  - specialize (IH j Hkj ltac:(lia)). now destruct (scan fuel s j).
Qed.

Lemma malformed_foreign (mathString : string) (k : nat) (c : ascii) :
  String.get k (stripSpaces mathString) = Some c -> foreign c = true ->
  malformed mathString = true.
Proof.
  intros Hget Hfor. unfold malformed.
  set (s := stripSpaces mathString) in *.
  now rewrite (scan_foreign s k c Hget Hfor (S (String.length s)) 0
                 ltac:(lia) ltac:(lia)).
Qed.

Lemma stripSpaces_append (a b : string) :
  stripSpaces (a ++ b) = stripSpaces a ++ stripSpaces b.
Proof.
  induction a as [|c a IH]; [reflexivity|].
  simpl. destruct (isSpace c); simpl; now rewrite IH.
Qed.

Lemma get_append_here (a b : string) (c : ascii) :
  String.get (String.length a) (a ++ String c b) = Some c.
Proof. induction a as [|x a IH]; [reflexivity|exact IH]. Qed.

(** A math string that contains the separator [||] is malformed. *)
Lemma malformed_separator (mathString : string) :
  includes mathString "||" = true -> malformed mathString = true.
Proof.
  intros Hinc. apply includes_append in Hinc as (a & b & ->).
  apply malformed_foreign with (k := String.length (stripSpaces a)) (c := "|"%char);
    [|reflexivity].
  rewrite stripSpaces_append.
  change (stripSpaces ("||" ++ b)) with (String "|" (String "|" (stripSpaces b))).
  apply get_append_here.
Qed.

(** ** isMathString *)

(** C9. [isMathString] is true for a string exactly when the string
    starts with the literal [now] or contains the separator [||]: it is
    true for [now-1h] and for [2021-01-01||+1d], and false for
    [2021-01-01]. *)
Theorem isMathString_iff :
  forall (DT Date : Type) (text : string),
    (@isMathString DT Date (TextString text) = true <->
       (exists rest, text = "now" ++ rest) \/
       (exists anchor math, text = anchor ++ "||" ++ math)) /\
    @isMathString DT Date (TextString "now-1h") = true /\
    @isMathString DT Date (TextString "2021-01-01||+1d") = true /\
    @isMathString DT Date (TextString "2021-01-01") = false.
Proof.
  intros DT Date text. split; [|repeat split].
  unfold isMathString, startsWith, NOW_STRING.
  now rewrite orb_true_iff, prefix_append, includes_append.
Qed.

(** Anything that is not a string is not a math string. *)
Lemma isMathString_not_string (DT Date : Type) (text : text_input DT Date) :
  (forall s, text <> TextString s) -> isMathString text = false.
Proof. destruct text; intros Hs; [now destruct (Hs s)|reflexivity..]. Qed.

(** ** parse on texts that start with [now] *)

Section ParseFacts.

Context {DT Date : Type} `{Calendar DT} `{Clock DT Date}.

Lemma startsWith_now (rest : string) : startsWith ("now" ++ rest) NOW_STRING = true.
Proof. apply prefix_append. now exists rest. Qed.

Lemma getMathString_now (rest : string) : getMathString ("now" ++ rest) = rest.
Proof.
  unfold getMathString. rewrite startsWith_now. apply (substringFrom_now rest).
Qed.

Lemma getTime_now (rest : string) (timezone : option string) :
  getTime ("now" ++ rest) timezone = dateTimeForTimeZone timezone.
Proof. unfold getTime. now rewrite startsWith_now. Qed.

(** C4, as the code has it. For every text that starts with [now],
    [parse] takes the current instant as the anchor, whatever anchor part
    the text has, and the math string handed to [parseDateMath] is
    everything after the [now] prefix, to the end of the text: a [||]
    that follows [now], and what follows it, belong to the math
    string. *)
Theorem parse_now (rest : string) (roundUp : bool) (timezone : option string)
    (fiscalYearStartMonth : option Z) :
  getTime ("now" ++ rest) timezone = dateTimeForTimeZone timezone /\
  getMathString ("now" ++ rest) = rest /\
  parse (TextString ("now" ++ rest)) roundUp timezone fiscalYearStartMonth =
    (if String.eqb rest "" then Some (VDateTime (dateTimeForTimeZone timezone))
     else option_map value_of_call
            (parseDateMath rest (dateTimeForTimeZone timezone) roundUp
               (match fiscalYearStartMonth with Some m => m | None => 0 end))).
Proof.
  split; [apply getTime_now|split; [apply getMathString_now|]].
  unfold parse. change (String.eqb ("now" ++ rest) "") with false. cbv iota.
  now rewrite getMathString_now, getTime_now.
Qed.

(** X19. For a text that starts with [now] and has a separator [||]
    after it, [parse] returns [undefined]: the separator reaches
    [parseDateMath], which rejects it. *)
Lemma parse_now_with_separator (rest : string) (roundUp : bool)
    (timezone : option string) (fiscalYearStartMonth : option Z) :
  includes rest "||" = true ->
  parse (TextString ("now" ++ rest)) roundUp timezone fiscalYearStartMonth
    = Some VUndefined.
Proof.
  intros Hinc. unfold parse.
  change (String.eqb ("now" ++ rest) "") with false. cbv iota.
  rewrite getMathString_now, getTime_now.
  destruct (String.eqb_spec rest "") as [->|_]; [discriminate|].
  now rewrite parseDateMath_scan, (malformed_separator rest Hinc).
Qed.

End ParseFacts.

(** C4, the claim as stated fails: in [now-1d||+1h] the math string is
    [-1d||+1h], separator included, not [-1d]; the evaluator rejects it,
    while [-1d] alone is a day back from the current instant. *)
Lemma parse_now_separator_counterexample :
  startsWith "now-1d||+1h" NOW_STRING = true /\
  mathString_up_to_separator "now-1d||+1h" = "-1d" /\
  getMathString "now-1d||+1h" = "-1d||+1h" /\
  getMathString "now-1d||+1h" <> mathString_up_to_separator "now-1d||+1h" /\
  @parse Z Z Utc.calendar Utc.clock (TextString "now-1d||+1h") false None None
    = Some VUndefined /\
  @parseDateMath Z Utc.calendar "-1d" (Utc.utc 2021 6 15 12 30 45 500) false 0
    = Some (Returned, Utc.utc 2021 6 14 12 30 45 500).
Proof. repeat split; try reflexivity. vm_compute. discriminate. Qed.

(** ** parseDateMath on single operations *)

Section Evaluator.

Context {DT : Type} `{Calendar DT}.

Lemma loop_first_rejected (s : string) (roundUp : bool) (fy : Z) (fuel : nat)
    (T : DT) :
  (0 < String.length s)%nat ->
  (forall t i, readToken s 0 = Some (t, i) -> rejected t = true) ->
  parseDateMath_loop (S fuel) s roundUp fy 0 T = Some (Undefined, T).
Proof.
  intros Hlen Hrej. simpl.
  destruct (Nat.ltb_spec 0 (String.length s)) as [_|]; [|lia].
  destruct (iteration_readToken s roundUp fy 0 T) as (t & i & Hr & _ & ->).
  now rewrite (Hrej t i Hr).
Qed.

(** A count of two digits or more is never read whole: the count is the
    first digit and the second digit is taken as the unit. *)
Lemma two_digits_rejected (op c1 c2 : ascii) (rest : string) (T : DT)
    (roundUp : bool) (fy : Z) :
  isDigit c1 = true -> isDigit c2 = true ->
  parseDateMath (String op (String c1 (String c2 rest))) T roundUp fy
    = Some (Undefined, T).
Proof.
  intros H1 H2. unfold parseDateMath.
  cbn [stripSpaces]. rewrite (digit_not_space c1 H1), (digit_not_space c2 H2).
  destruct (isSpace op).
  - apply loop_first_rejected; [simpl; lia|].
    intros t i. unfold readToken, nextChar.
    change (charAt (String c1 (String c2 (stripSpaces rest))) 0)
      with (String c1 "").
    destruct (getNum _ 1) as [[n j]|]; [|discriminate].
    destruct (String.eqb _ "f"); intros [= <- _];
      unfold rejected; simpl tok_type; now rewrite (digit_not_operator c1 H1).
  - apply loop_first_rejected; [simpl; lia|].
    intros t i. unfold readToken, nextChar.
    rewrite (getNum_digit (String op (String c1 (String c2 (stripSpaces rest))))
               1 c1 eq_refl H1).
    change (String.length (String op (String c1 (String c2 (stripSpaces rest)))) =? 2)%nat
      with false.
    cbv iota.
    change (charAt (String op (String c1 (String c2 (stripSpaces rest)))) 2)
      with (String c2 "").
    rewrite (digit_not_f c2 H2). intros [= <- _].
    unfold rejected. simpl tok_unit. rewrite (digit_not_unit c2 H2).
    apply orb_true_r.
Qed.


Ltac each_unit Hu :=
  repeat (destruct Hu as [<-|Hu]; [try reflexivity|]); try destruct Hu.

(** C10. On an addition or a subtraction the fiscal flag [f] before the
    unit is accepted for each of the eight units and changes nothing:
    [+1f{u}] does what [+1{u}] does, and [-1f{u}] what [-1{u}] does. *)
Theorem fiscal_flag_ignored_on_shift (u : string) (T : DT) (roundUp : bool)
    (fy : Z) :
  In u UNITS ->
  parseDateMath ("+1f" ++ u) T roundUp fy = parseDateMath ("+1" ++ u) T roundUp fy /\
  parseDateMath ("+1" ++ u) T roundUp fy = Some (Returned, add (JNum 1) u T) /\
  parseDateMath ("-1f" ++ u) T roundUp fy = parseDateMath ("-1" ++ u) T roundUp fy /\
  parseDateMath ("-1" ++ u) T roundUp fy = Some (Returned, subtract (JNum 1) u T).
Proof.
  intros Hu. repeat split; each_unit Hu.
Qed.

(** C8. Rounding to the day is idempotent: when the calendar's
    [startOf] and [endOf] are idempotent at [T], evaluating [/d] on the
    result of evaluating [/d] on [T] gives that same result. *)
Theorem round_day_idempotent (T : DT) (roundUp : bool) (fy : Z) :
  startOf "d" (startOf "d" T) = startOf "d" T ->
  endOf "d" (endOf "d" T) = endOf "d" T ->
  exists T1,
    parseDateMath "/d" T roundUp fy = Some (Returned, T1) /\
    parseDateMath "/d" T1 roundUp fy = Some (Returned, T1).
Proof.
  intros Hs He. destruct roundUp.
  - exists (endOf "d" T). split; [reflexivity|].
    change (parseDateMath "/d" (endOf "d" T) true fy)
      with (Some (Returned, endOf "d" (endOf "d" T))).
    now rewrite He.
  - exists (startOf "d" T). split; [reflexivity|].
    change (parseDateMath "/d" (startOf "d" T) false fy)
      with (Some (Returned, startOf "d" (startOf "d" T))).
    now rewrite Hs.
Qed.

Lemma digit_other_than_one (c : ascii) :
  isDigit c = true -> String c "" <> "1" -> (digitValue c =? 1) = false.
Proof.
  destruct c as [[] [] [] [] [] [] [] []]; vm_compute; intros; congruence.
Qed.

(** C6. A rounding takes no count but 1: for each unit [u], [/] followed
    by any run of digits other than [1] and by [u] is rejected, the
    timestamp untouched, while [/{u}] and [/1{u}] are accepted and both
    round to the unit. *)
Theorem round_count_must_be_one (u ds : string) (T : DT) (roundUp : bool)
    (fy : Z) :
  In u UNITS -> ds <> "" -> allDigits ds = true -> ds <> "1" ->
  parseDateMath ("/" ++ ds ++ u) T roundUp fy = Some (Undefined, T) /\
  parseDateMath ("/" ++ u) T roundUp fy = parseDateMath ("/1" ++ u) T roundUp fy /\
  parseDateMath ("/" ++ u) T roundUp fy
    = Some (Returned, if roundUp then endOf u T else startOf u T).
Proof.
  intros Hu Hne Hd H1. split; [|split; destruct roundUp; each_unit Hu].
  destruct ds as [|c [|c2 rest]]; [congruence| |].
  - simpl in Hd. rewrite andb_true_r in Hd.
    pose proof (digit_other_than_one c Hd H1) as Hv.
    assert (Hs : stripSpaces (String "/" (String c u)) = String "/" (String c u)).
    { cbn [stripSpaces]. change (isSpace "/") with false.
      rewrite (digit_not_space c Hd). cbv iota. each_unit Hu. }
    assert (Hlen : String.length u = 1%nat) by each_unit Hu.
    destruct u as [|cu [|? ?]]; try discriminate.
    unfold parseDateMath; simpl append; rewrite Hs.
    cbn [String.length parseDateMath_loop Nat.ltb Nat.leb].
    unfold iteration, readToken, nextChar.
    rewrite (getNum_digit (String "/" (String c (String cu ""))) 1 c eq_refl Hd).
    cbn [String.length Nat.eqb charAt String.get].
    assert (Hr : forall f x, rejected (Token (Some 0) (JNum (digitValue c)) f x) = true).
    { intros f x. unfold rejected. simpl. now rewrite Hv. }
    change (MATH_OP_TYPE_MAP "/") with (Some 0).
    destruct (String.eqb (String cu "") "f"); now rewrite Hr.
  - simpl in Hd. apply andb_prop in Hd as [Hc Hd]. apply andb_prop in Hd as [Hc2 _].
    simpl append. now apply two_digits_rejected.
Qed.

(** C3. The code at [/f] followed by a unit other than [y] and [Q]:
    [roundToFiscal] answers [undefined], the answer is dropped, and the
    expression is accepted with the timestamp as it was. *)
Theorem fiscal_round_unsupported_unit_accepted :
  Forall (fun u => forall (T : DT) (roundUp : bool) (fy : Z),
              roundToFiscal fy T u roundUp = Some (Undefined, T) /\
              parseDateMath ("/f" ++ u) T roundUp fy = Some (Returned, T))
         ["M"; "w"; "d"; "h"; "m"; "s"].
Proof.
  repeat constructor; now destruct roundUp.
Qed.

(** C1. The code at [+10d]: the count read is the first digit, the
    second digit is taken for the unit, and the expression is rejected. *)
Theorem add_two_digit_count_rejected (T : DT) (roundUp : bool) (fy : Z) :
  readToken "+10d" 0 = Some (Token (Some 1) (JNum 1) false "0", 3%nat) /\
  parseDateMath "+10d" T roundUp fy = Some (Undefined, T).
Proof. split; reflexivity. Qed.

(** *** Adding, then subtracting *)


Lemma decimal_two_digits (n : nat) :
  (10 <= n)%nat ->
  exists c1 c2 r, decimal n = String c1 (String c2 r)
                  /\ isDigit c1 = true /\ isDigit c2 = true.
Proof.
  intros Hn. unfold decimal.
  pose proof (DecimalNat.Unsigned.of_to n) as Hof.
  destruct (Nat.to_uint n) as [|d|d|d|d|d|d|d|d|d|d];
    try (vm_compute in Hof; lia);
    (destruct d as [|d|d|d|d|d|d|d|d|d|d];
     [vm_compute in Hof; lia|..]; simpl; do 3 eexists; repeat split).
Qed.

(** From count 10 on, the addition is rejected whatever the unit. *)
Lemma addThenSubtract_two_digits (n : nat) (u : string) (T : DT) (roundUp : bool)
    (fy : Z) :
  (10 <= n)%nat -> addThenSubtract n u T roundUp fy = Some (Undefined, T).
Proof.
  intros Hn. destruct (decimal_two_digits n Hn) as (c1 & c2 & r & Hdec & H1 & H2).
  unfold addThenSubtract. rewrite Hdec. simpl append.
  now rewrite (two_digits_rejected "+" c1 c2 (r ++ u) T roundUp fy H1 H2).
Qed.

(** C5. The code at count 10: for each unit, [+10{u}] is rejected, so
    there is no timestamp to subtract from and [T] is not obtained. *)
Theorem addThenSubtract_ten_rejected :
  Forall (fun u => forall (T : DT) (roundUp : bool) (fy : Z),
              addThenSubtract 10 u T roundUp fy = Some (Undefined, T))
         UNITS.
Proof.
  repeat constructor.
Qed.

(** *** Malformed math strings *)

(** C2, as the code has it. For every math string that is malformed at
    some position, [parseDateMath] returns [undefined]; the timestamp
    object it was given has then been shifted, in place, by the operations
    accepted before that position, in order. *)
Theorem malformed_returns_undefined (mathString : string) (ts : list token)
    (k : nat) (T : DT) (roundUp : bool) (fy : Z) :
  scans (stripSpaces mathString) 0 ts k ->
  rejects_at (stripSpaces mathString) k ->
  parseDateMath mathString T roundUp fy
    = Some (Undefined, fold_left (effect roundUp fy) ts T).
Proof.
  intros Hs Hk. unfold parseDateMath.
  set (s := stripSpaces mathString) in *.
  rewrite parseDateMath_loop_scan by lia.
  now rewrite (scans_rejected_scan s 0 k ts Hs Hk (S (String.length s)) ltac:(lia)).
Qed.

(** When the first operation is the rejected one the timestamp is as it
    was. *)
Lemma malformed_first_unchanged (mathString : string) (T : DT)
    (roundUp : bool) (fy : Z) :
  rejects_at (stripSpaces mathString) 0 ->
  parseDateMath mathString T roundUp fy = Some (Undefined, T).
Proof.
  intros Hk. unfold parseDateMath.
  set (s := stripSpaces mathString) in *.
  rewrite parseDateMath_loop_scan by lia.
  now rewrite (scans_rejected_scan s 0 0 [] (scans_done s 0) Hk
                 (S (String.length s)) ltac:(lia)).
Qed.

(** A math string scanned to its end returns the timestamp object,
    shifted by all its operations. *)
Lemma wellformed_returns (mathString : string) (ts : list token) (k : nat)
    (T : DT) (roundUp : bool) (fy : Z) :
  scans (stripSpaces mathString) 0 ts k ->
  (String.length (stripSpaces mathString) <= k)%nat ->
  parseDateMath mathString T roundUp fy
    = Some (Returned, fold_left (effect roundUp fy) ts T).
Proof.
  intros Hs Hk. unfold parseDateMath.
  set (s := stripSpaces mathString) in *.
  rewrite parseDateMath_loop_scan by lia.
  now rewrite (scans_end_scan s 0 k ts Hs Hk (S (String.length s)) ltac:(lia)).
Qed.

End Evaluator.

(** ** Fiscal rounding *)

Section Fiscal.

Context {DT : Type} `{Calendar DT}.

(** For the fiscal year the offset the code subtracts is the offset
    [(month - start + 12) mod 12], for a start month in 0..11. *)
Lemma fiscal_year_offset (m fy : Z) :
  0 <= m <= 11 -> 0 <= fy <= 11 ->
  Z.rem (m - fy + 12) 12 = (m - fy + 12) mod 12 /\
  0 <= Z.rem (m - fy + 12) 12 <= 11.
Proof.
  intros Hm Hf. rewrite Z.rem_mod_nonneg by lia.
  split; [reflexivity|]. pose proof (Z.mod_pos_bound (m - fy + 12) 12). lia.
Qed.

(** For the fiscal quarter the code adds 3, not 12, before taking the
    remainder: the two offsets agree as long as the start month is at
    most three months after the current one. *)
Lemma fiscal_quarter_offset (m fy : Z) :
  fy <= m + 3 ->
  Z.rem (m - fy + 3) 3 = (m - fy + 12) mod 3.
Proof.
  intros Hf. rewrite Z.rem_mod_nonneg by lia.
  replace (m - fy + 12) with (m - fy + 3 + 3 * 3) by lia.
  now rewrite Z.mod_add by lia.
Qed.

(** Past that, the remainder is negative or zero: unless the timestamp is
    already in the first month of a fiscal quarter, it is the offset minus
    three, and subtracting it moves the timestamp forward. *)
Lemma fiscal_quarter_offset_negative (m fy : Z) :
  m + 3 < fy ->
  -2 <= Z.rem (m - fy + 3) 3 <= 0 /\
  ((m - fy + 12) mod 3 <> 0 ->
   Z.rem (m - fy + 3) 3 = (m - fy + 12) mod 3 - 3).
Proof.
  intros Hf.
  pose proof (Z.rem_nonpos (m - fy + 3) 3).
  pose proof (Z.rem_bound_abs (m - fy + 3) 3).
  pose proof (Z.quot_rem' (m - fy + 3) 3).
  pose proof (Z.div_mod (m - fy + 12) 3).
  pose proof (Z.mod_pos_bound (m - fy + 12) 3).
  lia.
Qed.

Lemma roundToFiscal_year (fy : Z) (T : DT) (roundUp : bool) :
  roundToFiscal fy T "y" roundUp =
    let down :=
      startOf "M" (subtract (JNum (Z.rem (month T - fy + 12) 12)) "M" T) in
    Some (Returned, if roundUp then endOf "M" (add (JNum 11) "M" down) else down).
Proof. now destruct roundUp. Qed.

Lemma roundToFiscal_quarter (fy : Z) (T : DT) (roundUp : bool) :
  roundToFiscal fy T "Q" roundUp =
    let down :=
      startOf "M" (subtract (JNum (Z.rem (month T - fy + 3) 3)) "M" T) in
    Some (Returned, if roundUp then endOf "M" (add (JNum 2) "M" down) else down).
Proof. now destruct roundUp. Qed.

(** With the fiscal year starting in May, rounding a January timestamp
    down to the fiscal quarter subtracts minus one month. *)
Lemma roundToFiscal_quarter_january_may (T : DT) :
  month T = 0 ->
  roundToFiscal 4 T "Q" false
    = Some (Returned, startOf "M" (subtract (JNum (-1)) "M" T)).
Proof. intros Hm. rewrite roundToFiscal_quarter, Hm. reflexivity. Qed.

End Fiscal.

(** C7. The code at fiscal start month 4 (May) and a timestamp in
    January, rounding down to the fiscal quarter: the remainder
    [(0 - 4 + 3) % 3] is -1, so one month is added and the result is
    1 February, where the offset [(0 - 4 + 12) mod 3 = 2] leads to
    1 November, the start of the fiscal quarter. *)
Theorem fiscal_quarter_round_down_moves_forward :
  Utc.utc_month OnUtc.january15 = 0 /\
  Z.rem (0 - 4 + 3) 3 = -1 /\
  (0 - 4 + 12) mod 3 = 2 /\
  @roundToFiscal Z Utc.calendar 4 OnUtc.january15 "Q" false
    = Some (Returned, Utc.utc 2021 2 1 0 0 0 0) /\
  OnUtc.evaluateMath "/fQ" OnUtc.january15 false 4
    = Some (Returned, Utc.utc 2021 2 1 0 0 0 0) /\
  Utc.utc_startOf "M" (Utc.shift (- 2) "M" OnUtc.january15)
    = Utc.utc 2020 11 1 0 0 0 0.
Proof. repeat split; vm_compute; reflexivity. Qed.

(** C2, the claim as stated fails: [+1d+1x], [+1d*2d] and [+1d/2d] are
    malformed in their second operation (unit, operator, count) and
    [undefined] is returned, but the timestamp given, the epoch, has been
    moved a day forward by the first operation. *)
Lemma malformed_partial_shift_counterexample :
  malformed "+1d+1x" = true /\
  OnUtc.evaluateMath "+1d+1x" 0 false 0 = Some (Undefined, 86400000) /\
  OnUtc.evaluateMath "+1d*2d" 0 false 0 = Some (Undefined, 86400000) /\
  OnUtc.evaluateMath "+1d/2d" 0 false 0 = Some (Undefined, 86400000) /\
  OnUtc.evaluateMath "+1d+1x" 0 false 0 <> Some (Undefined, 0).
Proof. repeat split; try reflexivity. vm_compute. discriminate. Qed.

(** C2 at [+1d+1x] on the reference calendar: one accepted operation,
    then a rejected one at cursor 3. *)
Lemma malformed_returns_undefined_witness :
  scans "+1d+1x" 0 [Token (Some 1) (JNum 1) false "d"] 3 /\
  rejects_at "+1d+1x" 3 /\
  OnUtc.evaluateMath "+1d+1x" 0 false 0 = Some (Undefined, 86400000).
Proof.
  assert (Hs : scans "+1d+1x" 0 [Token (Some 1) (JNum 1) false "d"] 3).
  { apply scans_step with 3%nat; [simpl; lia|reflexivity|reflexivity|].
    apply scans_done. }
  assert (Hk : rejects_at "+1d+1x" 3).
  { split; [simpl; lia|]. exists (Token (Some 1) (JNum 1) false "x"), 6%nat.
    split; reflexivity. }
  split; [exact Hs|split; [exact Hk|]].
  apply (malformed_returns_undefined (H := Utc.calendar) "+1d+1x"
           [Token (Some 1) (JNum 1) false "d"] 3 0 false 0 Hs Hk).
Defined.

(** C10 at the unit [d] on the reference calendar. *)
Lemma fiscal_flag_ignored_on_shift_witness :
  In "d" UNITS /\
  OnUtc.evaluateMath "+1fd" OnUtc.june15 false 0
    = OnUtc.evaluateMath "+1d" OnUtc.june15 false 0.
Proof.
  assert (Hu : In "d" UNITS) by (simpl; tauto).
  split; [exact Hu|].
  apply (fiscal_flag_ignored_on_shift (H := Utc.calendar) "d" OnUtc.june15 false 0 Hu).
Defined.

(** C8 at 15 June 2021, rounding up, on the reference calendar. *)
Lemma round_day_idempotent_witness :
  Utc.utc_startOf "d" (Utc.utc_startOf "d" OnUtc.june15)
    = Utc.utc_startOf "d" OnUtc.june15 /\
  Utc.utc_endOf "d" (Utc.utc_endOf "d" OnUtc.june15)
    = Utc.utc_endOf "d" OnUtc.june15 /\
  exists T1,
    OnUtc.evaluateMath "/d" OnUtc.june15 true 0 = Some (Returned, T1) /\
    OnUtc.evaluateMath "/d" T1 true 0 = Some (Returned, T1).
Proof.
  split; [reflexivity|split; [reflexivity|]].
  apply (round_day_idempotent (H := Utc.calendar) OnUtc.june15 true 0);
    reflexivity.
Defined.

(** C6 at the unit [d] and the count [2] on the reference calendar. *)
Lemma round_count_must_be_one_witness :
  In "d" UNITS /\ allDigits "2" = true /\
  OnUtc.evaluateMath "/2d" OnUtc.june15 false 0 = Some (Undefined, OnUtc.june15) /\
  OnUtc.evaluateMath "/d" OnUtc.june15 false 0
    = OnUtc.evaluateMath "/1d" OnUtc.june15 false 0 /\
  OnUtc.evaluateMath "/d" OnUtc.june15 false 0
    = Some (Returned, Utc.utc 2021 6 15 0 0 0 0).
Proof.
  assert (Hu : In "d" UNITS) by (simpl; tauto).
  split; [exact Hu|split; [reflexivity|]].
  apply (round_count_must_be_one (H := Utc.calendar) "d" "2" OnUtc.june15 false 0 Hu);
    [discriminate|reflexivity|discriminate].
Defined.

(** ** The reference calendar and the examples of the specification *)

(** On the reference calendar [subtract] undoes [add] for the units of
    fixed length. *)
Lemma utc_shift_fixed_inverse (n t : Z) (u : string) :
  In u ["w"; "d"; "h"; "m"; "s"] ->
  Utc.shift (- n) u (Utc.shift n u t) = t.
Proof.
  intros Hu.
  repeat (destruct Hu as [<-|Hu]; [unfold Utc.shift, Utc.msPerDay; simpl; lia|]).
  destruct Hu.
Qed.

(** For months, quarters and years the day of the month is clamped, and
    adding then subtracting need not come back: a month, or a quarter,
    forward and back from the last day of a long month. *)
Lemma utc_shift_month_not_inverse :
  OnUtc.evaluateMath "+1M" (Utc.utc 2021 1 31 0 0 0 0) false 0
    = Some (Returned, Utc.utc 2021 2 28 0 0 0 0) /\
  OnUtc.evaluateMath "-1M" (Utc.utc 2021 2 28 0 0 0 0) false 0
    = Some (Returned, Utc.utc 2021 1 28 0 0 0 0) /\
  OnUtc.evaluateMath "+1Q" (Utc.utc 2021 8 31 0 0 0 0) false 0
    = Some (Returned, Utc.utc 2021 11 30 0 0 0 0) /\
  OnUtc.evaluateMath "-1Q" (Utc.utc 2021 11 30 0 0 0 0) false 0
    = Some (Returned, Utc.utc 2021 8 30 0 0 0 0).
Proof. repeat split. Qed.


(** [now] alone is the current instant; [now-1d/d] is the start of
    yesterday; an ISO date with a math part is shifted from that date;
    [/fQ] with the fiscal year starting in April rounds 15 June down to
    1 April; a count of eleven digits is rejected. *)
Lemma parse_examples :
  @parse Z Z Utc.calendar Utc.clock (TextString "now") false None None
    = Some (VDateTime OnUtc.june15) /\
  @parse Z Z Utc.calendar Utc.clock (TextString "now-1d/d") false None None
    = Some (VDateTime (Utc.utc 2021 6 14 0 0 0 0)) /\
  @parse Z Z Utc.calendar Utc.clock (TextString "2021-01-01||+1d") false None None
    = Some (VDateTime (Utc.utc 2021 1 2 0 0 0 0)) /\
  @parse Z Z Utc.calendar Utc.clock (TextString "2021-06-15||/fQ") false None (Some 3)
    = Some (VDateTime (Utc.utc 2021 4 1 0 0 0 0)) /\
  @parse Z Z Utc.calendar Utc.clock (TextString "2021-01-01") false None None
    = Some (VDateTime (Utc.utc 2021 1 1 0 0 0 0)) /\
  @parse Z Z Utc.calendar Utc.clock (TextString "") false None None
    = Some VUndefined /\
  OnUtc.evaluateMath "+12345678901d" OnUtc.june15 false 0
    = Some (Undefined, OnUtc.june15) /\
  OnUtc.evaluateMath "-d" OnUtc.june15 false 0
    = Some (Returned, Utc.utc 2021 6 14 12 30 45 500) /\
  OnUtc.evaluateMath "/M" OnUtc.june15 true 0
    = Some (Returned, Utc.utc 2021 6 30 23 59 59 999) /\
  OnUtc.evaluateMath "/fy" OnUtc.june15 true 3
    = Some (Returned, Utc.utc 2022 3 31 23 59 59 999).
Proof. repeat split. Qed.

(** * Further properties of the module *)

(** ** Reading an operation, in closed form *)

Lemma length_append (a b : string) :
  String.length (a ++ b) = (String.length a + String.length b)%nat.
Proof. induction a as [|c a IH]; simpl; congruence. Qed.

Lemma get_append_r (a b : string) (k : nat) :
  String.get (String.length a + k) (a ++ b) = String.get k b.
Proof. induction a as [|c a IH]; [reflexivity|exact IH]. Qed.

Lemma get_append_l (a b : string) (k : nat) :
  (k < String.length a)%nat -> String.get k (a ++ b) = String.get k a.
Proof.
  revert k. induction a as [|c a IH]; intros k Hk; simpl in Hk; [lia|].
  destruct k as [|k]; [reflexivity|]. simpl. apply IH. lia.
Qed.

Lemma get_none (s : string) (k : nat) :
  String.get k s = None <-> (String.length s <= k)%nat.
Proof.
  revert k. induction s as [|c s IH]; intros k; simpl.
  - split; [lia|reflexivity].
  - destruct k as [|k]; [split; [discriminate|lia]|].
    rewrite IH. lia.
Qed.

Lemma charAt_append_r (a b : string) (k : nat) :
  charAt (a ++ b) (String.length a + k) = charAt b k.
Proof. unfold charAt. now rewrite get_append_r. Qed.

Lemma charAt_append_l (a b : string) (k : nat) :
  (k < String.length a)%nat -> charAt (a ++ b) k = charAt a k.
Proof. intros Hk. unfold charAt. now rewrite get_append_l. Qed.

Lemma charAt_empty (s : string) (k : nat) :
  charAt s k = "" <-> (String.length s <= k)%nat.
Proof.
  rewrite <- get_none. unfold charAt.
  destruct (String.get k s); split; congruence.
Qed.

Lemma isNumber_charAt (s : string) (k : nat) :
  isNumber (charAt s k) = true ->
  exists c, String.get k s = Some c /\ isDigit c = true.
Proof.
  unfold charAt. destruct (String.get k s) as [c|]; [|discriminate].
  rewrite isNumber_char. now exists c.
Qed.

(** What [readToken] reads depends on the text through five characters
    at most and on whether the text has two characters. *)
Lemma readToken_cases (s : string) (i : nat) :
  readToken s i =
    let d := isNumber (charAt s (S i)) in
    let i1 := if d && negb (String.length s =? 2)%nat then S (S i) else S i in
    let num := if d then parseInt (charAt s (S i)) else JNum 1 in
    let type := MATH_OP_TYPE_MAP (charAt s i) in
    Some (if String.eqb (charAt s i1) "f"
          then (Token type num true (charAt s (S i1)), S (S i1))
          else (Token type num false (charAt s i1), S i1)).
Proof.
  unfold readToken, nextChar. cbv zeta.
  destruct (isNumber (charAt s (S i))) eqn:Hd.
  - destruct (isNumber_charAt s (S i) Hd) as (c & Hget & Hc).
    rewrite (getNum_digit s (S i) c Hget Hc), (charAt_get s (S i) c Hget),
      (parseInt_digit c Hc).
    destruct (String.length s =? 2)%nat; simpl;
      now destruct (String.eqb _ "f").
  - rewrite getNum_not_digit.
    + simpl. now destruct (String.eqb _ "f").
    + unfold charAt in Hd. destruct (String.get (S i) s) as [c|]; [|exact I].
      now rewrite isNumber_char in Hd.
Qed.

(** The cursor moves on by two, three or four characters. *)
Lemma readToken_progress (s : string) (i j : nat) (t : token) :
  readToken s i = Some (t, j) -> (i + 2 <= j <= i + 4)%nat.
Proof.
  rewrite readToken_cases. cbv zeta.
  destruct (isNumber _ && negb _); destruct (String.eqb _ "f");
    intros [= _ <-]; lia.
Qed.

(** Reading the same characters gives the same operation. *)
Lemma readToken_congr (s s' : string) (i i' j : nat) (t : token) :
  readToken s i = Some (t, j) ->
  (forall k, (i + k < j)%nat -> charAt s' (i' + k) = charAt s (i + k)) ->
  (isNumber (charAt s (S i)) = true ->
   (String.length s' =? 2)%nat = (String.length s =? 2)%nat) ->
  readToken s' i' = Some (t, (i' + (j - i))%nat).
Proof.
  intros Hr Hch Hflag. pose proof (readToken_progress s i j t Hr) as Hj.
  assert (H0 : charAt s' i' = charAt s i).
  { specialize (Hch 0%nat). rewrite !Nat.add_0_r in Hch. apply Hch. lia. }
  assert (H1 : charAt s' (S i') = charAt s (S i)).
  { specialize (Hch 1%nat). rewrite !Nat.add_1_r in Hch. apply Hch. lia. }
  assert (H2 : (i + 2 < j)%nat -> charAt s' (S (S i')) = charAt s (S (S i))).
  { intros Hlt. specialize (Hch 2%nat).
    replace (i' + 2)%nat with (S (S i')) in Hch by lia.
    replace (i + 2)%nat with (S (S i)) in Hch by lia. apply Hch. lia. }
  assert (H3 : (i + 3 < j)%nat -> charAt s' (S (S (S i'))) = charAt s (S (S (S i)))).
  { intros Hlt. specialize (Hch 3%nat).
    replace (i' + 3)%nat with (S (S (S i'))) in Hch by lia.
    replace (i + 3)%nat with (S (S (S i))) in Hch by lia. apply Hch. lia. }
  rewrite readToken_cases in Hr |- *. cbv zeta in Hr |- *.
  rewrite H0, H1.
  destruct (isNumber (charAt s (S i))) eqn:Hd.
  - rewrite (Hflag eq_refl).
    destruct (String.length s =? 2)%nat; simpl in Hr |- *.
    + rewrite H1. destruct (String.eqb (charAt s (S i)) "f"); injection Hr as <- <-.
      * rewrite H2 by lia. do 2 f_equal. lia.
      * do 2 f_equal. lia.
    + destruct (String.eqb (charAt s (S (S i))) "f") eqn:Hf; injection Hr as <- <-.
      * rewrite H2, Hf, H3 by lia. do 2 f_equal. lia.
      * rewrite H2, Hf by lia. do 2 f_equal. lia.
  - simpl in Hr |- *. rewrite H1.
    destruct (String.eqb (charAt s (S i)) "f"); injection Hr as <- <-.
    + rewrite H2 by lia. do 2 f_equal. lia.
    + do 2 f_equal. lia.
Qed.

(** An accepted operation lies within the text: its unit is a character
    of the text. *)
Lemma accepted_within (s : string) (i j : nat) (t : token) :
  readToken s i = Some (t, j) -> rejected t = false ->
  (j <= String.length s)%nat.
Proof.
  intros Hr Hrej.
  assert (Hu : tok_unit t = charAt s (j - 1)).
  { rewrite readToken_cases in Hr. cbv zeta in Hr.
    destruct (String.eqb _ "f"); injection Hr as <- <-; cbn [tok_unit];
      f_equal; lia. }
  destruct (Nat.le_gt_cases j (String.length s)) as [|Hgt]; [assumption|].
  assert (He : charAt s (j - 1) = "") by (apply charAt_empty; lia).
  unfold rejected in Hrej. rewrite Hu, He in Hrej.
  rewrite orb_true_r in Hrej. discriminate.
Qed.

(** An accepted operation with a count has three characters at least. *)
Lemma accepted_count_length (s : string) (i j : nat) (t : token) :
  readToken s i = Some (t, j) -> rejected t = false ->
  isNumber (charAt s (S i)) = true ->
  (String.length s =? 2)%nat = false /\ (i + 3 <= j)%nat.
Proof.
  intros Hr Hrej Hd. pose proof (accepted_within s i j t Hr Hrej) as Hj.
  destruct (isNumber_charAt s (S i) Hd) as (c & Hget & Hc).
  rewrite readToken_cases in Hr. cbv zeta in Hr. rewrite Hd in Hr.
  destruct (String.length s =? 2)%nat eqn:Hlen; simpl in Hr.
  - rewrite (charAt_get s (S i) c Hget), (digit_not_f c Hc) in Hr.
    injection Hr as <- <-.
    rewrite rejected_unit in Hrej; [discriminate|apply (digit_not_unit c Hc)].
  - split; [reflexivity|].
    destruct (String.eqb _ "f"); injection Hr as <- <-; lia.
Qed.

(** ** Scanning a concatenation *)

Lemma scans_app (s : string) (i k k' : nat) (ts1 ts2 : list token) :
  scans s i ts1 k -> scans s k ts2 k' -> scans s i (ts1 ++ ts2)%list k'.
Proof.
  intros H1 H2. induction H1 as [i|i j k t ts Hi Hr Hrej Hs IH]; [exact H2|].
  simpl. apply scans_step with j; auto.
Qed.

Lemma scans_within (s : string) (i k : nat) (ts : list token) :
  scans s i ts k -> (i <= String.length s)%nat -> (k <= String.length s)%nat.
Proof.
  intros Hs. induction Hs as [i|i j k t ts Hi Hr Hrej Hs IH]; [auto|].
  intros _. apply IH. now apply accepted_within with i t.
Qed.

(** The operations accepted in a text are read the same when more text
    follows. *)
Lemma scans_prefix (a b : string) (i k : nat) (ts : list token) :
  scans a i ts k -> scans (a ++ b) i ts k.
Proof.
  intros Hs. induction Hs as [i|i j k t ts Hi Hr Hrej Hs IH]; [constructor|].
  pose proof (accepted_within a i j t Hr Hrej) as Hj.
  pose proof (readToken_progress a i j t Hr) as Hp.
  apply scans_step with j; auto.
  - rewrite length_append. lia.
  - assert (Hc : readToken (a ++ b) i = Some (t, (i + (j - i))%nat)).
    { apply readToken_congr with (s := a); auto.
      + intros k' Hk'. apply charAt_append_l. lia.
      + intros Hd.
        destruct (accepted_count_length a i j t Hr Hrej Hd) as [-> Hj3].
        apply Nat.eqb_neq. rewrite length_append. lia. }
    now replace (i + (j - i))%nat with j in Hc by lia.
Qed.

(** Scanning what follows a text reads what scanning it alone reads. *)
Lemma scans_suffix (a b : string) (i k : nat) (ts : list token) :
  scans b i ts k ->
  scans (a ++ b) (String.length a + i) ts (String.length a + k).
Proof.
  intros Hs. induction Hs as [i|i j k t ts Hi Hr Hrej Hs IH]; [constructor|].
  pose proof (accepted_within b i j t Hr Hrej) as Hj.
  pose proof (readToken_progress b i j t Hr) as Hp.
  apply scans_step with (String.length a + j)%nat; auto.
  - rewrite length_append. lia.
  - assert (Hc : readToken (a ++ b) (String.length a + i)
                 = Some (t, (String.length a + i + (j - i))%nat)).
    { apply readToken_congr with (s := b); auto.
      + intros k' Hk'. rewrite <- Nat.add_assoc. apply charAt_append_r.
      + intros Hd.
        destruct (accepted_count_length b i j t Hr Hrej Hd) as [-> Hj3].
        apply Nat.eqb_neq. rewrite length_append. lia. }
    now replace (String.length a + i + (j - i))%nat
      with (String.length a + j)%nat in Hc by lia.
Qed.

Lemma rejects_suffix (a b : string) (k : nat) :
  rejects_at b k -> rejects_at (a ++ b) (String.length a + k).
Proof.
  intros (Hk & t & j & Hr & Hrej).
  split; [rewrite length_append; lia|].
  destruct (isNumber (charAt b (S k))) eqn:Hd.
  - destruct (Nat.eqb_spec (String.length (a ++ b)) 2) as [Hab|Hab];
      destruct (Nat.eqb_spec (String.length b) 2) as [Hb|Hb].
    + exists t, (String.length a + k + (j - k))%nat. split; [|exact Hrej].
      apply readToken_congr with (s := b); auto.
      * intros k' _. rewrite <- Nat.add_assoc. apply charAt_append_r.
      * intros _. apply Nat.eqb_eq in Hab, Hb. now rewrite Hab, Hb.
    + destruct (isNumber_charAt b (S k) Hd) as (c & Hget & _).
      apply get_lt in Hget. rewrite length_append in Hab. lia.
    + destruct (isNumber_charAt b (S k) Hd) as (c & Hget & Hc).
      pose proof (get_lt _ _ _ Hget) as Hlt.
      assert (k = 0%nat) by lia. subst k.
      rewrite readToken_cases. cbv zeta.
      rewrite Nat.add_0_r.
      replace (S (String.length a)) with (String.length a + 1)%nat by lia.
      rewrite charAt_append_r, Hd.
      apply Nat.eqb_neq in Hab. rewrite Hab. simpl andb. cbv iota.
      replace (S (String.length a + 1)) with (String.length a + 2)%nat by lia.
      rewrite charAt_append_r.
      assert (He : charAt b 2 = "") by (apply charAt_empty; lia).
      rewrite He. simpl String.eqb. cbv iota.
      do 2 eexists. split; [reflexivity|]. now apply rejected_unit.
    + exists t, (String.length a + k + (j - k))%nat. split; [|exact Hrej].
      apply readToken_congr with (s := b); auto.
      * intros k' _. rewrite <- Nat.add_assoc. apply charAt_append_r.
      * intros _. apply Nat.eqb_neq in Hab, Hb. now rewrite Hab, Hb.
  - exists t, (String.length a + k + (j - k))%nat. split; [|exact Hrej].
    apply readToken_congr with (s := b); auto.
    + intros k' _. rewrite <- Nat.add_assoc. apply charAt_append_r.
    + congruence.
Qed.

(** The scan of a well-formed text followed by another: the operations of
    the first, then the scan of the second. *)
Lemma scan_append (a b : string) :
  snd (scan (S (String.length a)) a 0) = true ->
  scan (S (String.length (a ++ b))) (a ++ b) 0 =
    ((fst (scan (S (String.length a)) a 0)
        ++ fst (scan (S (String.length b)) b 0))%list,
     snd (scan (S (String.length b)) b 0)).
Proof.
  intros Hok.
  destruct (scan_scans a (S (String.length a)) 0 ltac:(lia)) as (ka & Hsa & Hka).
  rewrite Hok in Hka.
  pose proof (scans_within a 0 ka _ Hsa ltac:(lia)) as Hka'.
  assert (ka = String.length a) by lia. subst ka.
  destruct (scan_scans b (S (String.length b)) 0 ltac:(lia)) as (kb & Hsb & Hkb).
  pose proof (scans_app _ _ _ _ _ _ (scans_prefix a b _ _ _ Hsa)
                (eq_rect _ (fun n => scans (a ++ b) n _ _)
                         (scans_suffix a b _ _ _ Hsb) _ (Nat.add_0_r _))) as Hs.
  destruct (snd (scan (S (String.length b)) b 0)).
  - apply (scans_end_scan _ _ _ _ Hs); [rewrite length_append|]; lia.
  - apply (scans_rejected_scan _ _ _ _ Hs); [|lia].
    now apply rejects_suffix.
Qed.

(** ** Evaluating a concatenation, and the accepted grammar *)

Lemma UNITS_includes_In (u : string) : UNITS_includes u = true <-> In u UNITS.
Proof.
  unfold UNITS_includes. rewrite existsb_exists. split.
  - intros (x & Hx & Heq). apply String.eqb_eq in Heq. now subst.
  - intros Hin. exists u. split; [exact Hin|apply String.eqb_refl].
Qed.

Lemma render_scan (o : operation) :
  op_valid o = true ->
  stripSpaces (render o) = render o /\
  scan (S (String.length (render o))) (render o) 0 = ([token_of o], true).
Proof.
  destruct o as [k c f u]. unfold op_valid. cbn [op_kind op_count op_fiscal op_unit].
  rewrite !andb_true_iff. intros [[Hu Hc] Hk].
  apply UNITS_includes_In in Hu.
  repeat (destruct Hu as [<-|Hu];
          [destruct c as [n|];
           [do 10 (destruct n as [|n];
                   [destruct k, f; try discriminate Hk; split; reflexivity|]);
            discriminate Hc
           |destruct k, f; split; reflexivity]|]).
  destruct Hu.
Qed.

Lemma render_all_scan (ops : list operation) :
  forallb op_valid ops = true ->
  stripSpaces (render_all ops) = render_all ops /\
  scan (S (String.length (render_all ops))) (render_all ops) 0
    = (map token_of ops, true).
Proof.
  induction ops as [|o ops IH]; [now split|].
  cbn [forallb render_all map]. rewrite andb_true_iff. intros [Ho Hops].
  destruct (render_scan o Ho) as [Hso Hscan].
  destruct (IH Hops) as [Hs IHscan]. split.
  - now rewrite stripSpaces_append, Hso, Hs.
  - rewrite scan_append by now rewrite Hscan.
    now rewrite Hscan, IHscan.
Qed.

Section Composition.

Context {DT : Type} `{Calendar DT}.

Lemma effect_token_of (roundUp : bool) (fy : Z) (T : DT) (o : operation) :
  effect roundUp fy T (token_of o) = perform roundUp fy T o.
Proof.
  unfold effect, perform, applyToken, token_of. cbn [tok_type tok_num tok_isFiscal tok_unit].
  destruct (op_kind o); cbn [kind_code]; try reflexivity.
  destruct (op_fiscal o); [|now destruct roundUp].
  destruct (roundToFiscal_total fy T (op_unit o) roundUp) as (r & T' & -> & Hr & _).
  now destruct r.
Qed.

Lemma fold_effect_perform (roundUp : bool) (fy : Z) (ops : list operation) :
  forall T : DT,
    fold_left (effect roundUp fy) (map token_of ops) T
    = fold_left (perform roundUp fy) ops T.
Proof.
  induction ops as [|o ops IH]; intros T; [reflexivity|].
  simpl. now rewrite effect_token_of, IH.
Qed.

Lemma parseDateMath_append_accepted (a b : string) (T : DT) (roundUp : bool)
    (fy : Z) :
  malformed a = false ->
  parseDateMath (a ++ b) T roundUp fy
    = parseDateMath b (fold_left (effect roundUp fy) (accepted a) T) roundUp fy.
Proof.
  intros Hm. unfold malformed in Hm. apply negb_false_iff in Hm.
  unfold parseDateMath, accepted. rewrite stripSpaces_append.
  set (A := stripSpaces a) in *. set (B := stripSpaces b).
  rewrite !parseDateMath_loop_scan by lia.
  rewrite (scan_append A B Hm). cbn [fst snd].
  now rewrite fold_left_app.
Qed.

(** X3. Evaluating [a ++ b], when [a] is accepted, is evaluating [b] on
    the timestamp that evaluating [a] leaves. *)
Theorem parseDateMath_append (a b : string) (T T1 : DT) (roundUp : bool) (fy : Z) :
  parseDateMath a T roundUp fy = Some (Returned, T1) ->
  parseDateMath (a ++ b) T roundUp fy = parseDateMath b T1 roundUp fy.
Proof.
  rewrite parseDateMath_scan.
  destruct (malformed a) eqn:Hm; [discriminate|]. intros [= <-].
  now apply parseDateMath_append_accepted.
Qed.

(** X8. A count of two digits or more is not read whole, wherever the
    operation stands: after an accepted text, an operator followed by two
    digits makes [parseDateMath] return [undefined], the timestamp left
    as the accepted text shifted it. *)
Theorem count_of_two_digits_rejected (a rest : string) (op c1 c2 : ascii)
    (T T1 : DT) (roundUp : bool) (fy : Z) :
  parseDateMath a T roundUp fy = Some (Returned, T1) ->
  isDigit c1 = true -> isDigit c2 = true ->
  parseDateMath (a ++ String op (String c1 (String c2 rest))) T roundUp fy
    = Some (Undefined, T1).
Proof.
  rewrite parseDateMath_scan.
  destruct (malformed a) eqn:Hm; [discriminate|]. intros [= <-] H1 H2.
  rewrite parseDateMath_append_accepted by exact Hm.
  now apply two_digits_rejected.
Qed.

(** X2. Whether a math string is accepted depends on the text alone, not
    on the timestamp, the rounding flag or the fiscal start month. *)
Theorem parseDateMath_outcome_independent (mathString : string) (T T' : DT)
    (roundUp roundUp' : bool) (fy fy' : Z) :
  option_map fst (parseDateMath mathString T roundUp fy)
  = option_map fst (parseDateMath mathString T' roundUp' fy').
Proof.
  rewrite (parseDateMath_scan mathString T roundUp fy).
  rewrite (parseDateMath_scan mathString T' roundUp' fy').
  reflexivity.
Qed.

(** X4. Every sequence of valid operations, written out one after the
    other, is accepted, and evaluating the text performs the operations in
    order on the timestamp. *)
Theorem parseDateMath_render_all (ops : list operation) (T : DT)
    (roundUp : bool) (fy : Z) :
  forallb op_valid ops = true ->
  parseDateMath (render_all ops) T roundUp fy
    = Some (Returned, fold_left (perform roundUp fy) ops T).
Proof.
  intros Hv. destruct (render_all_scan ops Hv) as [Hs Hscan].
  unfold parseDateMath. rewrite Hs, parseDateMath_loop_scan by lia.
  now rewrite Hscan, <- fold_effect_perform.
Qed.

End Composition.

(** ** Texts the scanner rejects or ignores *)

Lemma stripSpaces_allSpaces (w : string) :
  allSpaces w = true -> stripSpaces w = "".
Proof.
  induction w as [|c w IH]; [reflexivity|].
  simpl. destruct (isSpace c); [exact IH|discriminate].
Qed.

Lemma append_empty_r (s : string) : s ++ "" = s.
Proof. induction s; simpl; congruence. Qed.

Lemma append_assoc (a b c : string) : (a ++ b) ++ c = a ++ b ++ c.
Proof. induction a; simpl; congruence. Qed.

Section Rejections.

Context {DT : Type} `{Calendar DT}.

Lemma loop_one_token (s : string) (roundUp : bool) (fy : Z) (fuel : nat) (T : DT)
    (t : token) (j : nat) :
  (0 < String.length s)%nat -> readToken s 0 = Some (t, j) ->
  (String.length s <= j)%nat ->
  parseDateMath_loop (S (S fuel)) s roundUp fy 0 T =
    Some (if rejected t then (Undefined, T) else (Returned, effect roundUp fy T t)).
Proof.
  intros Hlen Hr Hj. cbn [parseDateMath_loop].
  destruct (Nat.ltb_spec 0 (String.length s)); [|lia].
  unfold iteration. rewrite Hr. destruct (rejected t); [reflexivity|].
  rewrite applyToken_effect.
  destruct (Nat.ltb_spec j (String.length s)); [lia|reflexivity].
Qed.

(** X5. White space is ignored wherever it stands, and a text of white
    space only, the empty text included, returns the timestamp as it
    is. *)
Theorem parseDateMath_spaces (a w b : string) (T : DT) (roundUp : bool) (fy : Z) :
  allSpaces w = true ->
  parseDateMath (a ++ w ++ b) T roundUp fy = parseDateMath (a ++ b) T roundUp fy /\
  parseDateMath w T roundUp fy = Some (Returned, T).
Proof.
  intros Hw. pose proof (stripSpaces_allSpaces w Hw) as Hs.
  unfold parseDateMath. rewrite !stripSpaces_append, Hs. split; reflexivity.
Qed.

(** X6. A character that is no white space, operator, digit, fiscal flag
    or unit, anywhere in the text, makes [parseDateMath] return
    [undefined]. *)
Theorem parseDateMath_foreign (a b : string) (c : ascii) (T : DT)
    (roundUp : bool) (fy : Z) :
  foreign c = true -> isSpace c = false ->
  exists T', parseDateMath (a ++ String c b) T roundUp fy = Some (Undefined, T').
Proof.
  intros Hfor Hsp. rewrite parseDateMath_scan.
  rewrite (malformed_foreign (a ++ String c b) (String.length (stripSpaces a)) c);
    [eauto| |exact Hfor].
  rewrite stripSpaces_append. cbn [stripSpaces]. rewrite Hsp.
  apply get_append_here.
Qed.

(** X7. A text of two characters is accepted exactly when it is an operator
    followed by a unit, and then the count is 1: in particular an
    operator followed by a digit is rejected. *)
Theorem parseDateMath_two_characters (c0 c1 : ascii) (T : DT) (roundUp : bool)
    (fy : Z) :
  isSpace c0 = false -> isSpace c1 = false ->
  parseDateMath (String c0 (String c1 "")) T roundUp fy =
    let t := Token (MATH_OP_TYPE_MAP (String c0 "")) (JNum 1) false (String c1 "") in
    match MATH_OP_TYPE_MAP (String c0 "") with
    | Some _ =>
        if UNITS_includes (String c1 "")
        then Some (Returned, effect roundUp fy T t)
        else Some (Undefined, T)
    | None => Some (Undefined, T)
    end.
Proof.
  intros H0 H1. unfold parseDateMath. cbn [stripSpaces]. rewrite H0, H1.
  set (s := String c0 (String c1 "")).
  assert (Hr : readToken s 0 =
               Some (if String.eqb (String c1 "") "f"
                     then (Token (MATH_OP_TYPE_MAP (String c0 ""))
                             (if isDigit c1 then parseInt (String c1 "") else JNum 1)
                             true "", 3%nat)
                     else (Token (MATH_OP_TYPE_MAP (String c0 ""))
                             (if isDigit c1 then parseInt (String c1 "") else JNum 1)
                             false (String c1 ""), 2%nat))).
  { rewrite readToken_cases. cbv zeta. subst s.
    change (charAt (String c0 (String c1 "")) 1) with (String c1 "").
    change (charAt (String c0 (String c1 "")) 0) with (String c0 "").
    rewrite isNumber_char. cbn [String.length Nat.eqb negb]. rewrite andb_false_r.
    change (charAt (String c0 (String c1 "")) 1) with (String c1 "").
    change (charAt (String c0 (String c1 "")) 2) with "".
    reflexivity. }
  change (String.length s) with 2%nat.
  destruct (String.eqb (String c1 "") "f") eqn:Hf.
  - rewrite (loop_one_token s roundUp fy 1 T _ 3 ltac:(simpl; lia) Hr ltac:(simpl; lia)).
    apply String.eqb_eq in Hf. injection Hf as ->.
    rewrite rejected_unit by reflexivity.
    now destruct (MATH_OP_TYPE_MAP (String c0 "")).
  - rewrite (loop_one_token s roundUp fy 1 T _ 2 ltac:(simpl; lia) Hr ltac:(simpl; lia)).
    cbv zeta. destruct (isDigit c1) eqn:Hd.
    + rewrite rejected_unit by apply (digit_not_unit c1 Hd).
      rewrite (digit_not_unit c1 Hd).
      now destruct (MATH_OP_TYPE_MAP (String c0 "")).
    + destruct (MATH_OP_TYPE_MAP (String c0 "")) as [z|] eqn:Hop; [|reflexivity].
      destruct (UNITS_includes (String c1 "")) eqn:Hu.
      * assert (Hrej : rejected (Token (Some z) (JNum 1) false (String c1 "")) = false).
        { unfold rejected. cbn [tok_type tok_num tok_unit]. rewrite Hu.
          now destruct z as [|p|p]. }
        now rewrite Hrej.
      * now rewrite rejected_unit by exact Hu.
Qed.

End Rejections.

(** ** The count reader never gives up *)

(** X9. [getNum] returns a number from 0 to 9, never [undefined] or
    [NaN], and moves the cursor by one character at most; when the
    character at the cursor is not a digit the number is 1 and the cursor
    stays.  The [return undefined] of the loop is never taken. *)
Theorem getNum_one_digit (s : string) (i : nat) :
  exists n i',
    getNum s i = Some (JNum n, i') /\ 0 <= n <= 9 /\ (i <= i' <= S i)%nat /\
    (isNumber (charAt s i) = false -> n = 1 /\ i' = i).
Proof.
  destruct (String.get i s) as [c|] eqn:Hget.
  - destruct (isDigit c) eqn:Hd.
    + rewrite (getNum_digit s i c Hget Hd). do 2 eexists.
      split; [reflexivity|]. split; [apply (digitValue_range c Hd)|]. split.
      * destruct (String.length s =? 2)%nat; lia.
      * rewrite (charAt_get s i c Hget), isNumber_char, Hd. discriminate.
    + rewrite getNum_not_digit by now rewrite Hget.
      do 2 eexists. split; [reflexivity|]. repeat split; lia.
  - rewrite getNum_not_digit by now rewrite Hget.
    do 2 eexists. split; [reflexivity|]. repeat split; lia.
Qed.

(** ** roundToFiscal *)

Section FiscalFacts.

Context {DT : Type} `{Calendar DT}.

(** X11. [roundToFiscal] returns the timestamp object for the units [y]
    and [Q]; for any other unit it returns [undefined] and leaves the
    timestamp as it is. It never runs out of recursion and never
    throws. *)
Theorem roundToFiscal_result (fy : Z) (T : DT) (unit : string) (roundUp : bool) :
  exists r T',
    roundToFiscal fy T unit roundUp = Some (r, T') /\
    (r = Returned <-> unit = "y" \/ unit = "Q") /\
    (r = Undefined <-> unit <> "y" /\ unit <> "Q") /\
    (r = Undefined -> T' = T).
Proof.
  unfold roundToFiscal.
  destruct roundUp; [rewrite roundToFiscal_up|rewrite roundToFiscal_down];
    destruct (String.eqb_spec unit "y") as [->|Hy];
    try destruct (String.eqb_spec unit "Q") as [->|HQ];
    do 2 eexists; (split; [reflexivity|]);
    repeat split; intros; try tauto; try congruence;
    try (intuition congruence); try (intuition discriminate).
Qed.

(** X12. Rounding down to the fiscal year subtracts the number of months from
    the start month of the fiscal year to the month of the timestamp,
    counted round the year, and goes to the start of that month. *)
Theorem roundToFiscal_year_down (fy : Z) (T : DT) :
  0 <= month T <= 11 -> 0 <= fy <= 11 ->
  roundToFiscal fy T "y" false
    = Some (Returned,
            startOf "M" (subtract (JNum ((month T - fy) mod 12)) "M" T)) /\
  0 <= (month T - fy) mod 12 <= 11.
Proof.
  intros Hm Hf. rewrite roundToFiscal_year. cbv zeta.
  destruct (fiscal_year_offset (month T) fy Hm Hf) as [-> Hb].
  replace (month T - fy + 12) with (month T - fy + 1 * 12) in * by lia.
  rewrite Z.mod_add in * by lia. split; [reflexivity|exact Hb].
Qed.

(** X13. Rounding down to the fiscal quarter does the same with quarters, as
    long as the start month is at most three months after the month of
    the timestamp; this is so for every timestamp when the fiscal year
    starts in one of the first four months. *)
Theorem roundToFiscal_quarter_down (fy : Z) (T : DT) :
  fy <= month T + 3 ->
  roundToFiscal fy T "Q" false
    = Some (Returned,
            startOf "M" (subtract (JNum ((month T - fy) mod 3)) "M" T)) /\
  0 <= (month T - fy) mod 3 <= 2.
Proof.
  intros Hf. rewrite roundToFiscal_quarter. cbv zeta.
  rewrite (fiscal_quarter_offset (month T) fy Hf).
  replace (month T - fy + 12) with (month T - fy + 4 * 3) by lia.
  rewrite Z.mod_add by lia. split; [reflexivity|].
  pose proof (Z.mod_pos_bound (month T - fy) 3). lia.
Qed.

(** X14. Rounding up is rounding down, then eleven months (two for a quarter)
    forward and to the end of that month. *)
Theorem roundToFiscal_up_from_down (fy : Z) (T T' : DT) (unit : string) :
  roundToFiscal fy T unit false = Some (Returned, T') ->
  roundToFiscal fy T unit true
    = Some (Returned,
            endOf "M" (add (JNum (if String.eqb unit "y" then 11 else 2)) "M" T')).
Proof.
  unfold roundToFiscal. rewrite roundToFiscal_up, roundToFiscal_down.
  destruct (String.eqb unit "y"); [now intros [= <-]|].
  destruct (String.eqb unit "Q"); [now intros [= <-]|discriminate].
Qed.

End FiscalFacts.

(** ** parse on texts that do not start with [now] *)

Lemma split_bars_step (cur : string) (c c' : ascii) (s : string) :
  split_bars cur (String c (String c' s)) =
    if (Ascii.eqb c "|" && Ascii.eqb c' "|")%bool
    then cur :: split_bars "" s
    else split_bars (cur ++ String c "") (String c' s).
Proof. reflexivity. Qed.

Lemma split_bars_no_separator (s cur : string) :
  includes s "||" = false -> split_bars cur s = [cur ++ s].
Proof.
  revert cur. induction s as [|c s IH]; intros cur Hinc.
  - simpl. now rewrite append_empty_r.
  - change (includes (String c s) "||")
      with (String.prefix "||" (String c s) || includes s "||") in Hinc.
    apply orb_false_iff in Hinc as [Hp Hinc].
    destruct s as [|c' s']; [reflexivity|].
    rewrite split_bars_step.
    destruct (Ascii.eqb_spec c "|") as [->|Hc];
      [destruct (Ascii.eqb_spec c' "|") as [->|Hc']|].
    + simpl in Hp. destruct s'; discriminate.
    + cbn [andb]. rewrite (IH _ Hinc), append_assoc. reflexivity.
    + cbn [andb]. rewrite (IH _ Hinc), append_assoc. reflexivity.
Qed.

Lemma prefix_cons (a b : ascii) (p s : string) :
  String.prefix (String a p) (String b s)
  = if ascii_dec a b then String.prefix p s else false.
Proof. reflexivity. Qed.

Lemma noBar_no_separator (s : string) : noBar s = true -> includes s "||" = false.
Proof.
  induction s as [|c s IH]; [reflexivity|].
  cbn [noBar]. rewrite andb_true_iff, negb_true_iff. intros [Hc Hs].
  change (includes (String c s) "||")
    with (String.prefix "||" (String c s) || includes s "||").
  rewrite (IH Hs), orb_false_r, prefix_cons.
  destruct (ascii_dec "|" c) as [<-|_]; [discriminate Hc|reflexivity].
Qed.

Lemma split_bars_separator (a b cur : string) :
  noBar a = true ->
  split_bars cur (a ++ "||" ++ b) = (cur ++ a) :: split_bars "" b.
Proof.
  revert cur. induction a as [|c a IH]; intros cur Ha.
  - simpl. now rewrite append_empty_r.
  - cbn [noBar] in Ha. apply andb_true_iff in Ha as [Hc Ha].
    apply negb_true_iff in Hc.
    change ((String c a) ++ "||" ++ b) with (String c (a ++ "||" ++ b)).
    assert (Hr : exists c' r, a ++ "||" ++ b = String c' r)
      by (destruct a; simpl; eauto).
    destruct Hr as (c' & r & Hr). rewrite Hr, split_bars_step, Hc. cbn [andb].
    rewrite <- Hr, (IH _ Ha). now rewrite append_assoc.
Qed.

Lemma split_anchor_math (anchor math rest : string) :
  noBar anchor = true -> noBar math = true ->
  JS.split (anchor ++ "||" ++ math) = [anchor; math] /\
  JS.split (anchor ++ "||" ++ math ++ "||" ++ rest) = anchor :: math :: JS.split rest.
Proof.
  intros Ha Hm. unfold JS.split. split.
  - rewrite split_bars_separator by exact Ha.
    now rewrite split_bars_no_separator by now apply noBar_no_separator.
  - now rewrite !split_bars_separator.
Qed.

Lemma startsWith_anchor (anchor tail : string) :
  noBar anchor = true ->
  startsWith (anchor ++ "||" ++ tail) NOW_STRING = startsWith anchor NOW_STRING.
Proof.
  unfold startsWith, NOW_STRING.
  destruct anchor as [|c1 [|c2 [|c3 r]]]; cbn [noBar append String.prefix];
    rewrite ?andb_true_iff, ?negb_true_iff; intros Ha;
    repeat match goal with
           | |- context [ascii_dec ?x ?y] => destruct (ascii_dec x y); try reflexivity
           end; try discriminate.
  now destruct r.
Qed.

Section ParsePaths.

Context {DT Date : Type} `{Calendar DT} `{Clock DT Date} `{Validity DT}.

(** X16. A text that is no math string and is not empty is handed to the ISO
    parser whole and returned as parsed: [parseDateMath] is not called. *)
Theorem parse_plain_date (text : string) (roundUp : bool)
    (timezone : option string) (fy : option Z) :
  @isMathString DT Date (TextString text) = false -> text <> "" ->
  parse (TextString text) roundUp timezone fy = Some (VDateTime (dateTimeISO text)) /\
  isValid (TextString text) = Some (dateIsValid (dateTimeISO text)).
Proof.
  cbn [isMathString]. rewrite orb_false_iff. intros [Hn Hs] Hne.
  assert (Hp : forall r tz f,
             parse (TextString text) r tz f = Some (VDateTime (dateTimeISO text))).
  { intros r tz f. unfold parse, getTime, getMathString, split_right, JS.split.
    destruct (String.eqb_spec text "") as [|_]; [contradiction|].
    rewrite Hn, (split_bars_no_separator text "" Hs). reflexivity. }
  split; [apply Hp|]. unfold isValid. now rewrite Hp.
Qed.

(** X17. For [anchor||math], neither part holding a [|] and the anchor not
    starting with [now], the math part is evaluated on the anchor as the
    ISO parser reads it; when the math part is empty the ISO parser is
    given the whole text, separator included. *)
Theorem parse_anchor_math (anchor math : string) (roundUp : bool)
    (timezone : option string) (fy : option Z) :
  noBar anchor = true -> noBar math = true ->
  startsWith anchor NOW_STRING = false ->
  parse (TextString (anchor ++ "||" ++ math)) roundUp timezone fy =
    if String.eqb math ""
    then Some (VDateTime (dateTimeISO (anchor ++ "||")))
    else option_map value_of_call
           (parseDateMath math (dateTimeISO anchor) roundUp
              (match fy with Some m => m | None => 0 end)).
Proof.
  intros Ha Hm Hn.
  destruct (split_anchor_math anchor math "" Ha Hm) as [Hsplit _].
  unfold parse, getTime, getMathString, split_right, split_left.
  rewrite startsWith_anchor, Hn, Hsplit by exact Ha. cbn [nth nth_error falsy].
  destruct (String.eqb_spec (anchor ++ "||" ++ math) "") as [He|_].
  - destruct anchor; discriminate.
  - destruct (String.eqb_spec math "") as [->|_]; reflexivity.
Qed.


(** X20. [isValid] on a [now] text: the clock's instant must be valid and,
    when a math part follows, the math part must be accepted and leave a
    valid timestamp.  A [DateTime] is as valid as it says, and the empty
    text is not valid. *)
Theorem isValid_now (rest : string) :
  isValid (TextString ("now" ++ rest)) =
    Some (if String.eqb rest "" then dateIsValid (dateTimeForTimeZone None)
          else negb (malformed rest)
               && dateIsValid (fold_left (effect false 0) (accepted rest)
                                 (dateTimeForTimeZone None))) /\
  (forall d : DT, isValid (Date := Date) (TextDateTime d) = Some (dateIsValid d)) /\
  isValid (DT := DT) (Date := Date) (TextString "") = Some false.
Proof.
  split; [|split; reflexivity].
  unfold isValid, parse. change (String.eqb ("now" ++ rest) "") with false. cbv iota.
  rewrite getMathString_now, getTime_now.
  destruct (String.eqb rest ""); [reflexivity|].
  rewrite parseDateMath_scan. now destruct (malformed rest).
Qed.

End ParsePaths.

(** ** isNumber *)

Lemma isNumber_cons (c : ascii) (r : string) :
  isNumber (String c r) =
    let s := if Ascii.eqb c "-" then r else String c r in
    startsWithDigit s &&
    (let r := dropDigits s in
     let r := match r with
              | String c' r' => if Ascii.eqb c' "." then r' else r
              | EmptyString => r
              end in
     match dropDigits r with EmptyString => true | _ => false end).
Proof.
  assert (Hdot : forall x : string,
             match x with String "." r' => r' | _ => x end
             = match x with
               | String c' r' => if Ascii.eqb c' "." then r' else x
               | EmptyString => x
               end).
  { intros [|c' r']; [reflexivity|].
    destruct c' as [[] [] [] [] [] [] [] []]; reflexivity. }
  unfold isNumber. cbv zeta. rewrite <- !Hdot.
  destruct c as [[] [] [] [] [] [] [] []]; reflexivity.
Qed.

Lemma dropDigits_split (s : string) :
  exists ds, s = ds ++ dropDigits s /\ allDigits ds = true
             /\ startsWithDigit (dropDigits s) = false.
Proof.
  induction s as [|c s (ds & Hs & Hd & Hn)].
  - now exists "".
  - simpl. destruct (isDigit c) eqn:Hc.
    + exists (String c ds). simpl. rewrite Hc, Hd. repeat split; [congruence|exact Hn].
    + exists "". simpl. now rewrite Hc.
Qed.

Lemma dropDigits_append (ds r : string) :
  allDigits ds = true -> dropDigits (ds ++ r) = dropDigits r.
Proof.
  induction ds as [|c ds IH]; [reflexivity|].
  simpl. destruct (isDigit c); [exact IH|discriminate].
Qed.

Lemma dropDigits_not_digit (r : string) :
  startsWithDigit r = false -> dropDigits r = r.
Proof. destruct r as [|c r]; [reflexivity|]. simpl. now intros ->. Qed.

Lemma dropDigits_all (d : string) : allDigits d = true -> dropDigits d = "".
Proof.
  intros Hd. rewrite <- (append_empty_r d). now rewrite dropDigits_append.
Qed.

(** The digits, then nothing or a point and digits. *)
Lemma number_body (s : string) :
  (startsWithDigit s &&
   (let r := dropDigits s in
    let r := match r with
             | String c' r' => if Ascii.eqb c' "." then r' else r
             | EmptyString => r
             end in
    match dropDigits r with EmptyString => true | _ => false end)) = true <->
  exists int frac,
    s = int ++ frac /\ int <> "" /\ allDigits int = true /\
    (frac = "" \/ exists d, frac = "." ++ d /\ allDigits d = true).
Proof.
  cbv zeta. rewrite andb_true_iff. split.
  - intros [Hs Hrest].
    destruct (dropDigits_split s) as (int & Hint & Hd & Hn).
    exists int, (dropDigits s). split; [exact Hint|]. split.
    { intros ->. simpl in Hint. rewrite <- Hint in Hn. congruence. }
    split; [exact Hd|].
    destruct (dropDigits s) as [|c' r'] eqn:Hr; [now left|]. right.
    destruct (Ascii.eqb_spec c' ".") as [->|Hc'].
    + destruct (dropDigits_split r') as (d & Hd' & Hdd & _).
      destruct (dropDigits r'); [|discriminate].
      rewrite append_empty_r in Hd'. exists r'. split; [reflexivity|congruence].
    + rewrite dropDigits_not_digit in Hrest by exact Hn. discriminate.
  - intros (int & frac & -> & Hne & Hd & Hfrac). split.
    + destruct int as [|c int]; [congruence|]. simpl in *.
      now apply andb_true_iff in Hd as [-> _].
    + rewrite dropDigits_append by exact Hd.
      destruct Hfrac as [->|(d & -> & Hdd)]; [reflexivity|].
      change (dropDigits ("." ++ d)) with (String "." d).
      change (Ascii.eqb "." ".") with true. cbv iota.
      now rewrite dropDigits_all.
Qed.

(** X15. [isNumber] accepts exactly an optional minus sign, one digit or
    more, and then nothing more or a point followed by any number of
    digits: [12], [-3.5] and [1.] are numbers, the empty text, [.5], [+1]
    and [1e5] are not. *)
Theorem isNumber_iff (s : string) :
  (isNumber s = true <->
   exists sign int frac,
     s = sign ++ int ++ frac /\ (sign = "" \/ sign = "-") /\
     int <> "" /\ allDigits int = true /\
     (frac = "" \/ exists d, frac = "." ++ d /\ allDigits d = true)) /\
  isNumber "12" = true /\ isNumber "-3.5" = true /\ isNumber "1." = true /\
  isNumber "" = false /\ isNumber ".5" = false /\ isNumber "+1" = false /\
  isNumber "1e5" = false.
Proof.
  split; [|repeat split].
  destruct s as [|c r].
  - split; [discriminate|].
    intros (sign & int & frac & Hs & _ & Hne & _).
    destruct sign; [destruct int; [congruence|discriminate]|discriminate].
  - rewrite isNumber_cons. cbv zeta.
    destruct (Ascii.eqb_spec c "-") as [->|Hc].
    + rewrite number_body. split.
      * intros (int & frac & -> & H). exists "-", int, frac. now split; [|split; [right|]].
      * intros (sign & int & frac & Hs & [-> | ->] & Hne & Hd & Hf).
        -- destruct int as [|c int]; [congruence|]. simpl in Hs, Hd.
           injection Hs as <- _. discriminate.
        -- simpl in Hs. injection Hs as ->. now exists int, frac.
    + rewrite number_body. split.
      * intros (int & frac & Hs & H). exists "", int, frac. now split; [|split; [left|]].
      * intros (sign & int & frac & Hs & [-> | ->] & Hne & Hd & Hf).
        -- now exists int, frac.
        -- simpl in Hs. congruence.
Qed.

(** ** The further properties on the reference calendar *)

(** X3 at [-1d] followed by [/d], from 15 June 2021. *)
Lemma parseDateMath_append_witness :
  OnUtc.evaluateMath "-1d" OnUtc.june15 false 0
    = Some (Returned, Utc.utc 2021 6 14 12 30 45 500) /\
  OnUtc.evaluateMath ("-1d" ++ "/d") OnUtc.june15 false 0
    = OnUtc.evaluateMath "/d" (Utc.utc 2021 6 14 12 30 45 500) false 0.
Proof.
  split; [reflexivity|].
  apply (parseDateMath_append (H := Utc.calendar) "-1d" "/d" OnUtc.june15
           (Utc.utc 2021 6 14 12 30 45 500) false 0).
  reflexivity.
Defined.

(** X4 at a month forward, the fiscal year rounded, two hours back. *)
Lemma parseDateMath_render_all_witness :
  forallb op_valid
    [Operation Add (Some 1%nat) false "M"; Operation Round None true "y";
     Operation Subtract (Some 2%nat) false "h"] = true /\
  render_all
    [Operation Add (Some 1%nat) false "M"; Operation Round None true "y";
     Operation Subtract (Some 2%nat) false "h"] = "+1M/fy-2h" /\
  OnUtc.evaluateMath "+1M/fy-2h" OnUtc.june15 false 3
    = Some (Returned, Utc.utc 2021 3 31 22 0 0 0).
Proof.
  split; [reflexivity|split; [reflexivity|]].
  apply (parseDateMath_render_all (H := Utc.calendar)
           [Operation Add (Some 1%nat) false "M"; Operation Round None true "y";
            Operation Subtract (Some 2%nat) false "h"] OnUtc.june15 false 3).
  reflexivity.
Defined.

(** X5 at a space and a tab between operator, count and unit. *)
Lemma parseDateMath_spaces_witness :
  allSpaces (String " " (String "009" "")) = true /\
  OnUtc.evaluateMath ("+1" ++ String " " (String "009" "") ++ "d") OnUtc.june15 false 0
    = OnUtc.evaluateMath ("+1" ++ "d") OnUtc.june15 false 0 /\
  OnUtc.evaluateMath (String " " (String "009" "")) OnUtc.june15 false 0
    = Some (Returned, OnUtc.june15).
Proof.
  split; [reflexivity|].
  apply (parseDateMath_spaces (H := Utc.calendar) "+1" (String " " (String "009" ""))
           "d" OnUtc.june15 false 0).
  reflexivity.
Defined.

(** X6 at a [*] after one accepted operation. *)
Lemma parseDateMath_foreign_witness :
  foreign "*" = true /\ isSpace "*" = false /\
  exists T', OnUtc.evaluateMath ("+1d" ++ String "*" "2d") OnUtc.june15 false 0
             = Some (Undefined, T').
Proof.
  split; [reflexivity|split; [reflexivity|]].
  apply (parseDateMath_foreign (H := Utc.calendar) "+1d" "2d" "*" OnUtc.june15 false 0);
    reflexivity.
Defined.

(** X7 at [+5], an operator and a digit. *)
Lemma parseDateMath_two_characters_witness :
  isSpace "+" = false /\ isSpace "5" = false /\
  OnUtc.evaluateMath "+5" OnUtc.june15 false 0 = Some (Undefined, OnUtc.june15).
Proof.
  split; [reflexivity|split; [reflexivity|]].
  apply (parseDateMath_two_characters (H := Utc.calendar) "+" "5" OnUtc.june15 false 0);
    reflexivity.
Defined.

(** X8 at [/d] followed by [-12h]. *)
Lemma count_of_two_digits_rejected_witness :
  OnUtc.evaluateMath "/d" OnUtc.june15 false 0
    = Some (Returned, Utc.utc 2021 6 15 0 0 0 0) /\
  isDigit "1" = true /\ isDigit "2" = true /\
  OnUtc.evaluateMath ("/d" ++ "-12h") OnUtc.june15 false 0
    = Some (Undefined, Utc.utc 2021 6 15 0 0 0 0).
Proof.
  split; [reflexivity|split; [reflexivity|split; [reflexivity|]]].
  apply (count_of_two_digits_rejected (H := Utc.calendar) "/d" "h" "-" "1" "2"
           OnUtc.june15 (Utc.utc 2021 6 15 0 0 0 0) false 0);
    reflexivity.
Defined.

(** X12 at 15 June 2021 with the fiscal year starting in April: two
    months back, to 1 April. *)
Lemma roundToFiscal_year_down_witness :
  0 <= Utc.utc_month OnUtc.june15 <= 11 /\ 0 <= 3 <= 11 /\
  roundToFiscal (H := Utc.calendar) 3 OnUtc.june15 "y" false
    = Some (Returned, Utc.utc 2021 4 1 0 0 0 0) /\
  0 <= (Utc.utc_month OnUtc.june15 - 3) mod 12 <= 11.
Proof.
  assert (Hm : 0 <= Utc.utc_month OnUtc.june15 <= 11) by (vm_compute; split; discriminate).
  split; [exact Hm|split; [lia|]].
  apply (roundToFiscal_year_down (H := Utc.calendar) 3 OnUtc.june15 Hm). lia.
Defined.

(** X13 at 15 June 2021 with the fiscal year starting in February: one
    month back, to 1 May. *)
Lemma roundToFiscal_quarter_down_witness :
  1 <= Utc.utc_month OnUtc.june15 + 3 /\
  roundToFiscal (H := Utc.calendar) 1 OnUtc.june15 "Q" false
    = Some (Returned, Utc.utc 2021 5 1 0 0 0 0) /\
  0 <= (Utc.utc_month OnUtc.june15 - 1) mod 3 <= 2.
Proof.
  assert (Hm : 1 <= Utc.utc_month OnUtc.june15 + 3) by (vm_compute; discriminate).
  split; [exact Hm|].
  apply (roundToFiscal_quarter_down (H := Utc.calendar) 1 OnUtc.june15 Hm).
Defined.

(** X14 at the fiscal year that starts on 1 April 2021 and ends with
    31 March 2022. *)
Lemma roundToFiscal_up_from_down_witness :
  roundToFiscal (H := Utc.calendar) 3 OnUtc.june15 "y" false
    = Some (Returned, Utc.utc 2021 4 1 0 0 0 0) /\
  roundToFiscal (H := Utc.calendar) 3 OnUtc.june15 "y" true
    = Some (Returned, Utc.utc 2022 3 31 23 59 59 999).
Proof.
  split; [reflexivity|].
  apply (roundToFiscal_up_from_down (H := Utc.calendar) 3 OnUtc.june15
           (Utc.utc 2021 4 1 0 0 0 0) "y").
  reflexivity.
Defined.

(** X16 at [2021-01-01]. *)
Lemma parse_plain_date_witness :
  @isMathString Z Z (TextString "2021-01-01") = false /\
  @parse Z Z Utc.calendar Utc.clock (TextString "2021-01-01") true None None
    = Some (VDateTime (Utc.utc 2021 1 1 0 0 0 0)) /\
  @isValid Z Z Utc.calendar Utc.clock Utc.validity (TextString "2021-01-01")
    = Some true.
Proof.
  split; [reflexivity|].
  apply (parse_plain_date (H := Utc.calendar) (H0 := Utc.clock) (H1 := Utc.validity)
           "2021-01-01" true None None); [reflexivity|discriminate].
Defined.

(** X17 at [2021-01-01||+1d]. *)
Lemma parse_anchor_math_witness :
  noBar "2021-01-01" = true /\ noBar "+1d" = true /\
  startsWith "2021-01-01" NOW_STRING = false /\
  @parse Z Z Utc.calendar Utc.clock (TextString ("2021-01-01" ++ "||" ++ "+1d"))
    false None None
    = Some (VDateTime (Utc.utc 2021 1 2 0 0 0 0)).
Proof.
  split; [reflexivity|split; [reflexivity|split; [reflexivity|]]].
  apply (parse_anchor_math (H := Utc.calendar) (H0 := Utc.clock)
           "2021-01-01" "+1d" false None None); reflexivity.
Defined.


(** X19 at [now||+1d]. *)
Lemma parse_now_with_separator_witness :
  includes "||+1d" "||" = true /\
  @parse Z Z Utc.calendar Utc.clock (TextString ("now" ++ "||+1d")) false None None
    = Some VUndefined.
Proof.
  split; [reflexivity|].
  apply (parse_now_with_separator (H := Utc.calendar) (H0 := Utc.clock)
           "||+1d" false None None).
  reflexivity.
Defined.
